(** * soeproxy: the request-rewriting handler of [proxy.js]

    A shallow embedding of the proxy's [onProxyReq] / [onProxyRes] handlers
    and of the middleware configuration [doxForward], together with models of
    the runtime and library calls they rely on ([JSON.parse],
    [JSON.stringify], property assignment and deletion, the [form-data]
    package's [FormData], stream listeners). *)

From Stdlib Require Import String Ascii List Bool Arith NArith ZArith Lia.
From Stdlib Require Import DecimalString.
Import ListNotations.

Local Open Scope list_scope.
Local Open Scope string_scope.

(* ================================================================== *)
(** ** Characters and strings *)

(** A JavaScript string is modelled by the byte string of its UTF-8
    encoding, so that [String.length] is Node's [Buffer.byteLength]. *)

Definition DQUOTE : ascii := "034"%char.
Definition BACKSLASH : ascii := "092"%char.

Definition char_code (c : ascii) : N := N_of_ascii c.
Definition char_of (n : N) : ascii := ascii_of_N n.

(** [quoted s] is [s] with every apostrophe turned into a double quote: a
    way to write JSON texts as literals. *)
Fixpoint quoted (s : string) : string :=
  match s with
  | EmptyString => EmptyString
  | String c rest =>
      String (if Ascii.eqb c "'"%char then DQUOTE else c) (quoted rest)
  end.

(** [String.prototype.includes]: does [sub] occur in [s]? Case-sensitive. *)
Fixpoint includes (s sub : string) : bool :=
  String.prefix sub s ||
  match s with
  | EmptyString => false
  | String _ rest => includes rest sub
  end.

(** ASCII lower-casing, as Node does for header names. *)
Definition lower_char (c : ascii) : ascii :=
  let n := char_code c in
  if (65 <=? n)%N && (n <=? 90)%N then char_of (n + 32) else c.

Fixpoint toLowerCase (s : string) : string :=
  match s with
  | EmptyString => EmptyString
  | String c rest => String (lower_char c) (toLowerCase rest)
  end.

(* ================================================================== *)
(** ** JavaScript values and the JSON built-ins *)

Module JSON.

(** *** Numbers

    A number is kept as the exact decimal its literal denotes,
    [(-1)^neg * coeff * 10^expo], with [coeff] free of trailing zeros.
    Rounding to binary64 is outside the model. *)
Record number : Type := mkNumber {
  num_neg : bool;
  num_coeff : N;
  num_expo : Z
}.

Fixpoint strip_zeros (fuel : nat) (c : N) (e : Z) : N * Z :=
  match fuel with
  | O => (c, e)
  | S fuel' =>
      if (c =? 0)%N then (0%N, 0%Z)
      else if (c mod 10 =? 0)%N then strip_zeros fuel' (c / 10)%N (e + 1)%Z
      else (c, e)
  end.

Definition normalize (neg : bool) (c : N) (e : Z) : number :=
  let '(c', e') := strip_zeros (S (N.to_nat (N.log2 c))) c e in
  mkNumber (if (c' =? 0)%N then false else neg) c' e'.

(** *** Values: what [JSON.parse] returns, as live objects.

    An object is its own properties in enumeration order; an array is its
    elements together with the non-index properties assigned to it. *)
#[local] Unset Elimination Schemes.
Inductive value : Type :=
| VNull
| VBool (b : bool)
| VNum (n : number)
| VStr (s : string)
| VArr (elems : list value) (expando : list (string * value))
| VObj (props : list (string * value)).
#[local] Set Elimination Schemes.

Definition properties : Type := list (string * value).

(** *** Own properties in enumeration order

    Array-index keys (canonical decimal numerals below 2^32 - 1) come first
    in ascending order; the other keys follow in creation order. *)

Definition is_digit (c : ascii) : bool :=
  let n := char_code c in (48 <=? n)%N && (n <=? 57)%N.

Definition digit_val (c : ascii) : N := (char_code c - 48)%N.

Fixpoint all_digits (s : string) : bool :=
  match s with
  | EmptyString => true
  | String c rest => is_digit c && all_digits rest
  end.

Fixpoint digits_value (acc : N) (s : string) : N :=
  match s with
  | EmptyString => acc
  | String c rest => digits_value (acc * 10 + digit_val c)%N rest
  end.

Definition array_index (k : string) : option N :=
  match k with
  | EmptyString => None
  | String c rest =>
      if all_digits k && (negb (Ascii.eqb c "0"%char) || String.eqb rest "")
      then let n := digits_value 0 k in
           if (n <? 4294967295)%N then Some n else None
      else None
  end.

Fixpoint get (k : string) (ps : properties) : option value :=
  match ps with
  | [] => None
  | (k', v) :: rest => if String.eqb k k' then Some v else get k rest
  end.

Definition has (k : string) (ps : properties) : bool :=
  match get k ps with Some _ => true | None => false end.

Fixpoint replace (k : string) (v : value) (ps : properties) : properties :=
  match ps with
  | [] => []
  | (k', v') :: rest =>
      if String.eqb k k' then (k', v) :: rest else (k', v') :: replace k v rest
  end.

Fixpoint insert_index (i : N) (k : string) (v : value) (ps : properties)
  : properties :=
  match ps with
  | [] => [(k, v)]
  | (k', v') :: rest =>
      match array_index k' with
      | Some j =>
          if (j <? i)%N then (k', v') :: insert_index i k v rest
          else (k, v) :: ps
      | None => (k, v) :: ps
      end
  end.

(** [o[k] = v] on own data properties. *)
Definition set (k : string) (v : value) (ps : properties) : properties :=
  if has k ps then replace k v ps
  else match array_index k with
       | Some i => insert_index i k v ps
       | None => (ps ++ [(k, v)])%list
       end.

(** [delete o[k]]. *)
Fixpoint remove (k : string) (ps : properties) : properties :=
  match ps with
  | [] => []
  | (k', v) :: rest =>
      if String.eqb k k' then remove k rest else (k', v) :: remove k rest
  end.

Definition is_object (v : value) : bool :=
  match v with VObj _ => true | _ => false end.

(** The members [JSON.stringify] writes for a value: those of an object. *)
Definition members (v : value) : properties :=
  match v with VObj props => props | _ => [] end.

(** *** [JSON.parse] *)

Definition is_ws (c : ascii) : bool :=
  let n := char_code c in
  (n =? 32)%N || (n =? 9)%N || (n =? 10)%N || (n =? 13)%N.

Fixpoint skip_ws (s : string) : string :=
  match s with
  | String c rest => if is_ws c then skip_ws rest else s
  | EmptyString => s
  end.

Fixpoint take_digits (s : string) : string * string :=
  match s with
  | String c rest =>
      if is_digit c
      then let '(ds, r) := take_digits rest in (String c ds, r)
      else (EmptyString, s)
  | EmptyString => (EmptyString, s)
  end.

Definition nonempty (s : string) : bool :=
  match s with EmptyString => false | _ => true end.

(** number = [-] int [frac] [exp]; no leading zeros in [int]. *)
Definition parse_number (s : string) : option (number * string) :=
  let '(neg, s1) :=
    match s with
    | String "-" r => (true, r)
    | _ => (false, s)
    end in
  let '(int_ds, s2) := take_digits s1 in
  let int_ok :=
    match int_ds with
    | EmptyString => false
    | String "0" more => negb (nonempty more)
    | _ => true
    end in
  if negb int_ok then None else
  let frac :=
    match s2 with
    | String "." r =>
        let '(ds, r') := take_digits r in
        if nonempty ds then Some (ds, r') else None
    | _ => Some (EmptyString, s2)
    end in
  match frac with
  | None => None
  | Some (frac_ds, s3) =>
      let expo :=
        match s3 with
        | String c r =>
            if Ascii.eqb c "e" || Ascii.eqb c "E" then
              let '(eneg, r1) :=
                match r with
                | String "-" r' => (true, r')
                | String "+" r' => (false, r')
                | _ => (false, r)
                end in
              let '(ds, r2) := take_digits r1 in
              if nonempty ds
              then Some (if eneg then (- Z.of_N (digits_value 0 ds))%Z
                         else Z.of_N (digits_value 0 ds), r2)
              else None
            else Some (0%Z, s3)
        | EmptyString => Some (0%Z, s3)
        end in
      match expo with
      | None => None
      | Some (e, s4) =>
          Some (normalize neg (digits_value 0 (int_ds ++ frac_ds))
                          (e - Z.of_nat (String.length frac_ds))%Z, s4)
      end
  end.

Definition hex_val (c : ascii) : option N :=
  let n := char_code c in
  if (48 <=? n)%N && (n <=? 57)%N then Some (n - 48)%N
  else if (65 <=? n)%N && (n <=? 70)%N then Some (n - 55)%N
  else if (97 <=? n)%N && (n <=? 102)%N then Some (n - 87)%N
  else None.

Definition hex4 (a b c d : ascii) : option N :=
  match hex_val a, hex_val b, hex_val c, hex_val d with
  | Some x, Some y, Some z, Some w => Some (((x * 16 + y) * 16 + z) * 16 + w)%N
  | _, _, _, _ => None
  end.

(** UTF-8 of a code point; a lone surrogate gets the same three-byte form. *)
Definition utf8 (cp : N) : string :=
  let b (n : N) := char_of n in
  let cont (n : N) := char_of (128 + n mod 64)%N in
  if (cp <? 128)%N then String (b cp) ""
  else if (cp <? 2048)%N then String (b (192 + cp / 64)%N) (String (cont cp) "")
  else if (cp <? 65536)%N then
    String (b (224 + cp / 4096)%N) (String (cont (cp / 64)%N) (String (cont cp) ""))
  else
    String (b (240 + cp / 262144)%N)
      (String (cont (cp / 4096)%N) (String (cont (cp / 64)%N) (String (cont cp) ""))).

Definition is_high_surrogate (cu : N) : bool := (55296 <=? cu)%N && (cu <? 56320)%N.
Definition is_low_surrogate (cu : N) : bool := (56320 <=? cu)%N && (cu <? 57344)%N.

Definition prepend (cs : string) (r : option (string * string))
  : option (string * string) :=
  match r with
  | Some (v, rest) => Some (cs ++ v, rest)
  | None => None
  end.

Definition one (n : N) : string := String (char_of n) "".

(** The characters of a string literal, after its opening quote. *)
Fixpoint parse_string_body (s : string) : option (string * string) :=
  match s with
  | EmptyString => None
  | String c rest =>
      if Ascii.eqb c DQUOTE then Some (EmptyString, rest)
      else if Ascii.eqb c BACKSLASH then
        match rest with
        | String e rest1 =>
            if Ascii.eqb e DQUOTE then prepend (one 34) (parse_string_body rest1)
            else if Ascii.eqb e BACKSLASH then prepend (one 92) (parse_string_body rest1)
            else if Ascii.eqb e "/" then prepend (one 47) (parse_string_body rest1)
            else if Ascii.eqb e "b" then prepend (one 8) (parse_string_body rest1)
            else if Ascii.eqb e "f" then prepend (one 12) (parse_string_body rest1)
            else if Ascii.eqb e "n" then prepend (one 10) (parse_string_body rest1)
            else if Ascii.eqb e "r" then prepend (one 13) (parse_string_body rest1)
            else if Ascii.eqb e "t" then prepend (one 9) (parse_string_body rest1)
            else if Ascii.eqb e "u" then
              match rest1 with
              | String h1 (String h2 (String h3 (String h4 rest2))) =>
                  match hex4 h1 h2 h3 h4 with
                  | Some cu =>
                      match rest2 with
                      | String b2 (String u2 (String l1 (String l2 (String l3
                          (String l4 rest3))))) =>
                          match hex4 l1 l2 l3 l4 with
                          | Some lo =>
                              if is_high_surrogate cu && Ascii.eqb b2 BACKSLASH
                                 && Ascii.eqb u2 "u" && is_low_surrogate lo
                              then prepend
                                     (utf8 (65536 + (cu - 55296) * 1024 + (lo - 56320))%N)
                                     (parse_string_body rest3)
                              else prepend (utf8 cu) (parse_string_body rest2)
                          | None => prepend (utf8 cu) (parse_string_body rest2)
                          end
                      | _ => prepend (utf8 cu) (parse_string_body rest2)
                      end
                  | None => None
                  end
              | _ => None
              end
            else None
        | EmptyString => None
        end
      else if (char_code c <? 32)%N then None
      else prepend (String c "") (parse_string_body rest)
  end.

Section Loops.
(** The element and member loops of arrays and objects, over the value
    parser [pv] of the enclosing level. *)
Variable pv : string -> option (value * string).

Fixpoint parse_elements (n : nat) (acc : list value) (s : string)
  : option (value * string) :=
  match n with
  | O => None
  | S n' =>
      match pv s with
      | Some (v, rest) =>
          match skip_ws rest with
          | String "," rest' => parse_elements n' (acc ++ [v])%list rest'
          | String "]" rest' => Some (VArr (acc ++ [v])%list [], rest')
          | _ => None
          end
      | None => None
      end
  end.

Fixpoint parse_members (n : nat) (acc : properties) (s : string)
  : option (value * string) :=
  match n with
  | O => None
  | S n' =>
      match skip_ws s with
      | String q rest =>
          if negb (Ascii.eqb q DQUOTE) then None else
          match parse_string_body rest with
          | Some (k, rest1) =>
              match skip_ws rest1 with
              | String ":" rest2 =>
                  match pv rest2 with
                  | Some (v, rest3) =>
                      match skip_ws rest3 with
                      | String "," rest4 => parse_members n' (set k v acc) rest4
                      | String "}" rest4 => Some (VObj (set k v acc), rest4)
                      | _ => None
                      end
                  | None => None
                  end
              | _ => None
              end
          | None => None
          end
      | EmptyString => None
      end
  end.
End Loops.

(** One value, with leading white space; [depth] bounds the nesting. *)
Fixpoint parse_value (depth : nat) (s : string) : option (value * string) :=
  match depth with
  | O => None
  | S depth' =>
      match skip_ws s with
      | EmptyString => None
      | String c rest as s' =>
          if Ascii.eqb c "{" then
            match skip_ws rest with
            | String "}" rest' => Some (VObj [], rest')
            | _ => parse_members (parse_value depth') (String.length rest) [] rest
            end
          else if Ascii.eqb c "[" then
            match skip_ws rest with
            | String "]" rest' => Some (VArr [] [], rest')
            | _ => parse_elements (parse_value depth') (String.length rest) [] rest
            end
          else if Ascii.eqb c DQUOTE then
            match parse_string_body rest with
            | Some (v, rest') => Some (VStr v, rest')
            | None => None
            end
          else if String.prefix "true" s' then
            Some (VBool true, String.substring 4 (String.length s' - 4) s')
          else if String.prefix "false" s' then
            Some (VBool false, String.substring 5 (String.length s' - 5) s')
          else if String.prefix "null" s' then
            Some (VNull, String.substring 4 (String.length s' - 4) s')
          else
            match parse_number s' with
            | Some (n, rest') => Some (VNum n, rest')
            | None => None
            end
      end
  end.

(** [JSON.parse text]: [None] when it throws a [SyntaxError]. The nesting
    depth and the loops are bounded by the length of the text, which a
    well-formed text never exceeds. *)
Definition parse (text : string) : option value :=
  match parse_value (S (String.length text)) text with
  | Some (v, rest) =>
      match skip_ws rest with
      | EmptyString => Some v
      | _ => None
      end
  | None => None
  end.

(** *** [JSON.stringify] *)

Definition hex_digit (n : N) : ascii :=
  if (n <? 10)%N then char_of (48 + n) else char_of (87 + n).

Definition hex4_string (n : N) : string :=
  String (hex_digit (n / 4096 mod 16)%N)
    (String (hex_digit (n / 256 mod 16)%N)
       (String (hex_digit (n / 16 mod 16)%N)
          (String (hex_digit (n mod 16)%N) ""))).

Definition escape (s : string) : string := String BACKSLASH s.

(** QuoteJSONString, without the surrounding quotes. *)
Fixpoint quote_chars (s : string) : string :=
  match s with
  | EmptyString => EmptyString
  | String c rest =>
      let n := char_code c in
      let lone :=
        match rest with
        | String c2 (String c3 rest') =>
            if (n =? 237)%N && (160 <=? char_code c2)%N
            then Some (escape ("u" ++ hex4_string
                         (53248 + (char_code c2 mod 64) * 64 + char_code c3 mod 64)%N)
                       ++ quote_chars rest')
            else None
        | _ => None
        end in
      match lone with
      | Some r => r
      | None =>
          (if (n =? 34)%N then escape (one 34)
           else if (n =? 92)%N then escape (one 92)
           else if (n =? 8)%N then escape "b"
           else if (n =? 9)%N then escape "t"
           else if (n =? 10)%N then escape "n"
           else if (n =? 12)%N then escape "f"
           else if (n =? 13)%N then escape "r"
           else if (n <? 32)%N then escape ("u" ++ hex4_string n)
           else String c "") ++ quote_chars rest
      end
  end.

Definition quote (s : string) : string :=
  String DQUOTE (quote_chars s ++ String DQUOTE "").

Definition decimal (n : N) : string := NilEmpty.string_of_uint (N.to_uint n).

Fixpoint zeros (n : nat) : string :=
  match n with O => "" | S n' => String "0" (zeros n') end.

(** Number::toString in radix 10, from the digits [s] ([k] of them) and
    the position [n] of the decimal point. *)
Definition number_to_string (x : number) : string :=
  if (num_coeff x =? 0)%N then "0" else
  let s := decimal (num_coeff x) in
  let k := Z.of_nat (String.length s) in
  let n := (k + num_expo x)%Z in
  let body :=
    if (k <=? n)%Z && (n <=? 21)%Z then s ++ zeros (Z.to_nat (n - k))
    else if (0 <? n)%Z && (n <=? 21)%Z then
      String.substring 0 (Z.to_nat n) s ++ "." ++
      String.substring (Z.to_nat n) (Z.to_nat (k - n)) s
    else if (-6 <? n)%Z && (n <=? 0)%Z then "0." ++ zeros (Z.to_nat (- n)) ++ s
    else
      let e := (n - 1)%Z in
      let etxt := (if (e <? 0)%Z then "-" else "+") ++ decimal (Z.abs_N e) in
      if (k =? 1)%Z then s ++ "e" ++ etxt
      else String.substring 0 1 s ++ "." ++
           String.substring 1 (Z.to_nat (k - 1)) s ++ "e" ++ etxt in
  (if num_neg x then "-" else "") ++ body.

Fixpoint join (sep : string) (l : list string) : string :=
  match l with
  | [] => ""
  | [x] => x
  | x :: rest => x ++ sep ++ join sep rest
  end.

(** [JSON.stringify v] for the values [JSON.parse] builds: an array is
    written from its elements alone. *)
Fixpoint stringify (v : value) : string :=
  match v with
  | VNull => "null"
  | VBool true => "true"
  | VBool false => "false"
  | VNum n => number_to_string n
  | VStr s => quote s
  | VArr elems _ => "[" ++ join "," (map stringify elems) ++ "]"
  | VObj props =>
      "{" ++ join "," (map (fun kv => quote (fst kv) ++ ":" ++ stringify (snd kv)) props)
          ++ "}"
  end.

End JSON.

(* ================================================================== *)
(** ** The [form-data] package: [FormData] *)

Definition bytes : Type := list Byte.byte.

Definition utf8_bytes (s : string) : bytes := list_byte_of_string s.

Module FormData.

Definition LINE_BREAK : string := String (char_of 13) (String (char_of 10) "").

(** The value given to [append]: a string or a [Buffer]. *)
Inductive content : Type :=
| Text (s : string)
| Buffer (b : bytes).

(** The options object given to [append]. *)
Record Options : Type := mkOptions {
  filename : option string;
  contentType : option string
}.

Definition no_options : Options := mkOptions None None.

Record Part : Type := mkPart {
  field : string;
  value : content;
  options : Options
}.

(** The form: its boundary, the parts appended so far and the two running
    lengths the package keeps ([_overheadLength], [_valueLength]). *)
Record t : Type := mkForm {
  boundary : string;
  parts : list Part;
  overheadLength : N;
  valueLength : N
}.

(** The text of a part's header (boundary line, [Content-Disposition],
    [Content-Type], blank line) is the package's own; the model takes it as
    a function of the boundary, the field name and the options. *)
Class HeaderRendering : Type :=
  multiPartHeader : string -> string -> Options -> string.

Section Package.
Context {rendering : HeaderRendering}.

Definition create (boundary : string) : t := mkForm boundary [] 0 0.

Definition content_bytes (c : content) : bytes :=
  match c with
  | Text s => utf8_bytes s
  | Buffer b => b
  end.

Definition byteLength (c : content) : N := N.of_nat (List.length (content_bytes c)).

(** [form.append(field, value, options)] *)
Definition append (f : t) (field : string) (value : content) (options : Options)
  : t :=
  let header := multiPartHeader (boundary f) field options in
  mkForm (boundary f)
         (parts f ++ [mkPart field value options])%list
         (overheadLength f + N.of_nat (String.length header)
          + N.of_nat (String.length LINE_BREAK))
         (valueLength f + byteLength value).

Definition lastBoundary (f : t) : string :=
  "--" ++ boundary f ++ "--" ++ LINE_BREAK.

Definition has_parts (f : t) : bool :=
  match parts f with [] => false | _ => true end.

(** [form.getLengthSync()] for forms of strings and buffers. *)
Definition getLengthSync (f : t) : N :=
  overheadLength f + valueLength f
  + (if has_parts f then N.of_nat (String.length (lastBoundary f)) else 0).

(** [form.getHeaders()] *)
Definition getHeaders (f : t) : list (string * string) :=
  [("content-type", "multipart/form-data; boundary=" ++ boundary f)].

Definition part_bytes (b : string) (p : Part) : bytes :=
  (utf8_bytes (multiPartHeader b (field p) (options p))
   ++ content_bytes (value p) ++ utf8_bytes LINE_BREAK)%list.

(** The bytes the form emits when piped to completion. *)
Definition stream (f : t) : bytes :=
  (flat_map (part_bytes (boundary f)) (parts f)
   ++ (if has_parts f then utf8_bytes (lastBoundary f) else []))%list.
End Package.

End FormData.

(** Forms reached from [new FormData()] by [append]. *)
Inductive Built {rendering : FormData.HeaderRendering} : FormData.t -> Prop :=
| Built_create b : Built (FormData.create b)
| Built_append f field value options :
    Built f -> Built (FormData.append f field value options).

(* ================================================================== *)
(** ** Effects: exceptions, the log, the outbound request, listeners *)

Inductive Exn : Type :=
| SyntaxError
| TypeError
| Error (message : string).

(** [String(err)], without the engine's wording of built-in messages. *)
Definition Exn_toString (e : Exn) : string :=
  match e with
  | SyntaxError => "SyntaxError"
  | TypeError => "TypeError"
  | Error m => "Error: " ++ m
  end.

(** A JavaScript number used as a length. *)
Inductive jsnum : Type :=
| NaN
| Num (n : N).

Definition truthy (x : jsnum) : bool :=
  match x with NaN => false | Num n => negb (n =? 0)%N end.

Definition isNaN (x : jsnum) : bool :=
  match x with NaN => true | Num _ => false end.

Inductive HeaderValue : Type :=
| HStr (s : string)
| HNum (n : jsnum).

(** Events of a readable stream, and the calls a listener makes:
    [console.error(label, err)], [proxyReq.destroy(err)], [proxyReq.end()],
    [res.destroy(err)]. *)
Inductive StreamEvent : Type :=
| Data (chunk : bytes)
| End
| Failed (err : Exn).

Definition event_name (ev : StreamEvent) : string :=
  match ev with
  | Data _ => "data"
  | End => "end"
  | Failed _ => "error"
  end.

Inductive Call : Type :=
| console_error (label : string) (err : Exn)
| proxyReq_destroy (err : Exn)
| proxyReq_end
| res_destroy (err : Exn).

Record Listener : Type := mkListener {
  listens_to : string;
  run : StreamEvent -> list Call
}.

Inductive Level : Type := debug | info | error.

(** What a handler does, in order: [logger.<level>(message)],
    [proxyReq.setHeader(name, v)], [form.pipe(proxyReq)],
    [form.on(event, listener)], [fixRequestBody(proxyReq, req)],
    [proxyRes.pipe(res)] and [proxyRes.on(event, listener)]. *)
Inductive Effect : Type :=
| Log (level : Level) (message : string)
| SetHeader (name : string) (v : HeaderValue)
| Pipe (form : FormData.t)
| FormOn (l : Listener)
| FixRequestBody
| ResPipe
| ProxyResOn (l : Listener).

Inductive Completion (A : Type) : Type :=
| Normal (a : A)
| Throw (e : Exn).
Arguments Normal {A} a.
Arguments Throw {A} e.

(** A computation: the effects performed, then how it completed. *)
Definition M (A : Type) : Type := list Effect * Completion A.

Definition ret {A} (a : A) : M A := ([], Normal a).

Definition throw {A} (e : Exn) : M A := ([], Throw e).

Definition perform (x : Effect) : M unit := ([x], Normal tt).

Definition bind {A B} (m : M A) (k : A -> M B) : M B :=
  match m with
  | (fx, Normal a) => let '(fx', c) := k a in ((fx ++ fx')%list, c)
  | (fx, Throw e) => (fx, Throw e)
  end.

(** [try { m } catch (e) { h e }] *)
Definition try_catch {A} (m : M A) (h : Exn -> M A) : M A :=
  match m with
  | (fx, Throw e) => let '(fx', c) := h e in ((fx ++ fx')%list, c)
  | _ => m
  end.

Declare Scope js_scope.
Delimit Scope js_scope with js.
Notation "x <- m ;; k" := (bind m (fun x => k))
  (at level 61, m at next level, right associativity) : js_scope.
Notation "m ;; k" := (bind m (fun _ => k))
  (at level 61, right associativity) : js_scope.
Local Open Scope js_scope.

(** A loop over [l] that threads the loop's mutable object. *)
Fixpoint foldM {A S} (body : S -> A -> M S) (l : list A) (s : S) : M S :=
  match l with
  | [] => ret s
  | a :: rest => s' <- body s a ;; foldM body rest s'
  end.

Fixpoint forEach {A} (l : list A) (body : A -> M unit) : M unit :=
  match l with
  | [] => ret tt
  | a :: rest => body a ;; forEach rest body
  end.

(** A library call that returns or throws, and touches nothing else. *)
Definition call {A} (c : Completion A) : M A := ([], c).

Definition effects {A} (m : M A) : list Effect := fst m.
Definition completion {A} (m : M A) : Completion A := snd m.

(** [x || d] on a possibly undefined string. *)
Definition or_else (x : option string) (d : string) : string :=
  match x with
  | Some EmptyString | None => d
  | Some s => s
  end.

(* ================================================================== *)
(** ** The inbound request *)

(** A file as multer's memory storage delivers it. *)
Record File : Type := mkFile {
  fieldname : string;
  originalname : string;
  mimetype : string;
  buffer : bytes
}.

(** [headers] has lower-case names, as Node stores them; [body] lists the
    own enumerable properties of [req.body] in [for-in] order, each a text
    field; [files] is [None] when [req.files] is not an array. *)
Record Request : Type := mkRequest {
  method : string;
  url : string;
  headers : list (string * string);
  body : list (string * string);
  files : option (list File)
}.

Fixpoint lookup (k : string) (l : list (string * string)) : option string :=
  match l with
  | [] => None
  | (k', v) :: rest => if String.eqb k k' then Some v else lookup k rest
  end.

(** The files of the request: none when [req.files] is not an array. *)
Definition uploaded (req : Request) : list File :=
  match files req with
  | Some fs => fs
  | None => []
  end.

(** [req.get(name)] *)
Definition get (req : Request) (name : string) : option string :=
  lookup (toLowerCase name) (headers req).

(* ================================================================== *)
(** ** [proxy.js] *)

(** [process.env.DOX_SCHEMA || "SO_Auto_Extraction_Schema"] *)
Definition doxSchemaName (DOX_SCHEMA : option string) : string :=
  or_else DOX_SCHEMA "SO_Auto_Extraction_Schema".

(** [jsonOptions.schemaName = name] in sloppy mode, for a key that is not
    an array index: ignored on a primitive, a [TypeError] on [null]. *)
Definition assign (target : JSON.value) (k : string) (v : JSON.value)
  : M JSON.value :=
  match target with
  | JSON.VNull => throw TypeError
  | JSON.VObj props => ret (JSON.VObj (JSON.set k v props))
  | JSON.VArr elems expando => ret (JSON.VArr elems (JSON.set k v expando))
  | primitive => ret primitive
  end.

(** [delete jsonOptions.extraction] *)
Definition delete (target : JSON.value) (k : string) : JSON.value :=
  match target with
  | JSON.VObj props => JSON.VObj (JSON.remove k props)
  | JSON.VArr elems expando => JSON.VArr elems (JSON.remove k expando)
  | other => other
  end.

Definition JSON_parse (text : string) : M JSON.value :=
  match JSON.parse text with
  | Some v => ret v
  | None => throw SyntaxError
  end.

Definition logger_debug (message : string) : M unit := perform (Log debug message).
Definition logger_error (message : string) : M unit := perform (Log error message).

Definition logger_info (message : string) : M unit := perform (Log info message).

Definition form_error_listener : Listener :=
  mkListener "error" (fun ev =>
    match ev with
    | Failed err => [console_error "Form pipe error:" err; proxyReq_destroy err]
    | _ => []
    end).

Definition form_end_listener : Listener :=
  mkListener "end" (fun _ => [proxyReq_end]).

Definition res_error_listener : Listener :=
  mkListener "error" (fun ev =>
    match ev with
    | Failed err => [console_error "proxyRes stream error:" err; res_destroy err]
    | _ => []
    end).

(** The plugin that logs each proxied request. *)
Definition simpleRequestLogger (req : Request) : M unit :=
  logger_info ("[HPM] [" ++ method req ++ "] " ++ url req).

(** Lines 94-101. *)
Definition onProxyRes : M unit :=
  perform ResPipe ;;
  perform (ProxyResOn res_error_listener).

(** The options object given to [createProxyMiddleware]; an absent [on]
    entry is [None]. *)
Record ProxyOptions : Type := mkProxyOptions {
  target : string;
  changeOrigin : bool;
  plugins : list (Request -> M unit);
  on_proxyReq : option (Request -> M unit);
  on_proxyRes : option (M unit)
}.

Section Handlers.
Context {rendering : FormData.HeaderRendering}.

(** [form.getLengthSync()], as a call that returns a number or throws. *)
Variable getLengthSync : FormData.t -> Completion jsnum.

(** The configured schema name and the boundary [new FormData()] draws. *)
Variable DOX_SCHEMA : option string.
Variable boundary : string.

(** Lines 40-46: one iteration of the loop over [req.body]. *)
Definition rewrite_field (form : FormData.t) (kv : string * string)
  : M FormData.t :=
  let '(key, text) := kv in
  jsonOptions <- JSON_parse text ;;
  logger_debug ("Original body request: " ++ JSON.stringify jsonOptions) ;;
  jsonOptions <- assign jsonOptions "schemaName" (JSON.VStr (doxSchemaName DOX_SCHEMA)) ;;
  let jsonOptions := delete jsonOptions "extraction" in
  logger_debug ("Modified body request: " ++ JSON.stringify jsonOptions) ;;
  ret (FormData.append form key (FormData.Text (JSON.stringify jsonOptions))
         FormData.no_options).

(** The part a text field becomes when its iteration completes. *)
Definition field_part (kv : string * string) (p : FormData.Part) : Prop :=
  exists v v',
    JSON.parse (snd kv) = Some v
    /\ completion (assign v "schemaName" (JSON.VStr (doxSchemaName DOX_SCHEMA)))
       = Normal v'
    /\ p = FormData.mkPart (fst kv)
             (FormData.Text (JSON.stringify (delete v' "extraction")))
             FormData.no_options.

(** The part an uploaded file becomes. *)
Definition file_part (file : File) : FormData.Part :=
  FormData.mkPart (fieldname file) (FormData.Buffer (buffer file))
    (FormData.mkOptions (Some (originalname file)) (Some (mimetype file))).

(** Line 53: one file appended. *)
Definition append_file (form : FormData.t) (file : File) : FormData.t :=
  FormData.append form (fieldname file) (FormData.Buffer (buffer file))
    (FormData.mkOptions (Some (originalname file)) (Some (mimetype file))).

(** Lines 50-55. *)
Definition append_files (form : FormData.t) (files : option (list File))
  : FormData.t :=
  match files with
  | Some fs => fold_left append_file fs form
  | None => form
  end.

(** Lines 32-33: the test that selects the multipart branch. *)
Definition is_multipart_post (req : Request) : bool :=
  let contentType := or_else (get req "Content-Type") "" in
  String.eqb (method req) "POST" && includes contentType "multipart/form-data".

(** Lines 64-71. *)
Definition set_content_length (form : FormData.t) : M unit :=
  try_catch
    (length <- call (getLengthSync form) ;;
     if truthy length && negb (isNaN length)
     then perform (SetHeader "Content-Length" (HNum length))
     else ret tt)
    (fun _ => ret tt).

Definition onProxyReq (req : Request) : M unit :=
  try_catch
    (if is_multipart_post req
     then
       logger_debug "Handling multipart/form-data request ..." ;;
       let form := FormData.create boundary in
       logger_debug "Modification of body request ..." ;;
       form <- foldM rewrite_field (body req) form ;;
       logger_debug "Adding files to multipart request ..." ;;
       let form := append_files form (files req) in
       logger_debug "Adding headers to request ..." ;;
       forEach (FormData.getHeaders form)
               (fun h => perform (SetHeader (fst h) (HStr (snd h)))) ;;
       logger_debug "Calculating Content-Length for the request ..." ;;
       set_content_length form ;;
       logger_debug "Pipelining new request ..." ;;
       perform (Pipe form) ;;
       perform (FormOn form_error_listener) ;;
       perform (FormOn form_end_listener)
     else
       logger_debug "No multipart/form-data request, using fixRequestBody ..." ;;
       perform FixRequestBody)
    (fun err => logger_error ("Error in onProxyReq: " ++ Exn_toString err)).

(** Lines 103-112: [proxyRes] is not among the registered handlers. *)
Definition doxForward : ProxyOptions :=
  mkProxyOptions "https://aiservices-dox.cfapps.eu10.hana.ondemand.com"
                 true
                 [simpleRequestLogger]
                 (Some onProxyReq)
                 None.
End Handlers.

(* ================================================================== *)
(** ** Listeners at work *)

(** The calls made when [ev] is emitted to the listeners [ls], in the
    order they were registered. *)
Definition dispatch (ls : list Listener) (ev : StreamEvent) : list Call :=
  flat_map (fun l => if String.eqb (listens_to l) (event_name ev)
                     then run l ev else []) ls.

Definition emit_all (ls : list Listener) (evs : list StreamEvent) : list Call :=
  flat_map (dispatch ls) evs.

(** The listeners a handler left on the form, and on the upstream response. *)
Fixpoint form_listeners (fx : list Effect) : list Listener :=
  match fx with
  | [] => []
  | FormOn l :: rest => l :: form_listeners rest
  | _ :: rest => form_listeners rest
  end.

Fixpoint proxyRes_listeners (fx : list Effect) : list Listener :=
  match fx with
  | [] => []
  | ProxyResOn l :: rest => l :: proxyRes_listeners rest
  | _ :: rest => proxyRes_listeners rest
  end.

(** A stream's life: chunks of data, then one closing event. *)
Inductive Run : list StreamEvent -> StreamEvent -> Prop :=
| Run_end : Run [End] End
| Run_failed (err : Exn) : Run [Failed err] (Failed err)
| Run_data (chunk : bytes) (evs : list StreamEvent) (last : StreamEvent) :
    Run evs last -> Run (Data chunk :: evs) last.

(** The calls that close the outbound request. *)
Definition is_terminal (c : Call) : bool :=
  match c with
  | proxyReq_destroy _ | proxyReq_end => true
  | _ => false
  end.

(** The outbound request, as far as its end is concerned: [end()] closes an
    open request and changes nothing afterwards, [destroy(err)] tears it
    down. *)
Inductive Status : Type := Open | Ended | Destroyed.

Definition apply_call (st : Status) (c : Call) : Status :=
  match c with
  | proxyReq_end => match st with Open => Ended | _ => st end
  | proxyReq_destroy _ => Destroyed
  | _ => st
  end.

Definition status_after (calls : list Call) : Status :=
  fold_left apply_call calls Open.

Definition is_res_destroy (c : Call) : bool :=
  match c with
  | res_destroy _ => true
  | _ => false
  end.

(** The middleware emits [proxyRes] to the handler registered for it. *)
Definition emit_proxyRes (o : ProxyOptions) : M unit :=
  match on_proxyRes o with
  | Some handler => handler
  | None => ret tt
  end.

(** The calls the program makes when the upstream response stream fails. *)
Definition on_response_error (o : ProxyOptions) (err : Exn) : list Call :=
  dispatch (proxyRes_listeners (effects (emit_proxyRes o))) (Failed err).

(** Effects on the outbound request. *)
Definition is_outbound (x : Effect) : bool :=
  match x with
  | SetHeader _ _ | Pipe _ | FormOn _ | FixRequestBody => true
  | _ => false
  end.

Definition is_log (x : Effect) : bool :=
  match x with
  | Log _ _ => true
  | _ => false
  end.

(** A header rendering for examples, after RFC 7578. *)
Definition example_rendering : FormData.HeaderRendering :=
  fun boundary field options =>
    "--" ++ boundary ++ FormData.LINE_BREAK
    ++ "Content-Disposition: form-data; name=" ++ String DQUOTE field ++ String DQUOTE ""
    ++ match FormData.filename options with
       | Some fn => "; filename=" ++ String DQUOTE fn ++ String DQUOTE ""
       | None => ""
       end
    ++ FormData.LINE_BREAK
    ++ match FormData.contentType options with
       | Some ct => "Content-Type: " ++ ct ++ FormData.LINE_BREAK
       | None => ""
       end
    ++ FormData.LINE_BREAK.

(** The package's length computation as the handler's library call. *)
Definition lib_getLengthSync (f : FormData.t) : Completion jsnum :=
  Normal (Num (FormData.getLengthSync f)).

(* ================================================================== *)
(** ** Sample requests *)

Definition multipart_headers : list (string * string) :=
  [("host", "localhost"); ("content-type", "multipart/form-data; boundary=abc")].

Definition invoice : File :=
  mkFile "doc" "invoice.pdf" "application/pdf" (utf8_bytes "%PDF-1.4 sample").

(** A multipart upload with one metadata field and one file. *)
Definition upload_request : Request :=
  mkRequest "POST" "/document/jobs" multipart_headers
    [("options", quoted "{'extraction':'foo','user':'bob'}")]
    (Some [invoice]).

(** The form the handler builds for [upload_request] with boundary [b]. *)
Definition upload_form : FormData.t :=
  append_files (rendering := example_rendering)
    (FormData.append (rendering := example_rendering) (FormData.create "b")
       "options"
       (FormData.Text (quoted "{'user':'bob','schemaName':'SO_Auto_Extraction_Schema'}"))
       FormData.no_options)
    (Some [invoice]).

(** The same upload sent with [PUT]. *)
Definition put_request : Request :=
  mkRequest "PUT" "/document/jobs" multipart_headers
    [("options", quoted "{'extraction':'foo','user':'bob'}")]
    (Some [invoice]).

(** An upload whose second field is not JSON. *)
Definition broken_request : Request :=
  mkRequest "POST" "/document/jobs" multipart_headers
    [("options", quoted "{'user':'bob'}"); ("extra", "{oops")]
    (Some [invoice]).

(** An upload whose field is the JSON text [null]. *)
Definition null_request : Request :=
  mkRequest "POST" "/document/jobs" multipart_headers
    [("options", "null")]
    (Some [invoice]).

(** A length computation that always throws. *)
Definition failing_getLengthSync (f : FormData.t) : Completion jsnum :=
  Throw (Error "Cannot calculate proper length in synchronous way.").

(* ================================================================== *)
(** ** The [proxyReq] event *)

(** A field the loop of lines 38-48 gets through: its text parses, and not
    to [null]. *)
Definition rewritable (kv : string * string) : bool :=
  match JSON.parse (snd kv) with
  | None | Some JSON.VNull => false
  | Some _ => true
  end.

(** The middleware emits [proxyReq] to its listeners in the order they were
    registered: the [on] handler, then the plugins. *)
Definition emit_proxyReq (o : ProxyOptions) (req : Request) : M unit :=
  match on_proxyReq o with
  | Some handler => handler req
  | None => ret tt
  end ;;
  forEach (plugins o) (fun plugin => plugin req).

(* ================================================================== *)
(** ** Start-up: lines 12-18 and 114-190 *)

Module Startup.

(** [process.env], as far as the program reads it. *)
Record Env : Type := mkEnv {
  VCAP_APPLICATION : option string;
  SSL_KEY : option string;
  SSL_CERT : option string;
  SSL_PASSPHRASE : option string;
  PORT : option string
}.

(** [!!process.env.VCAP_APPLICATION] *)
Definition isCloudFoundry (env : Env) : bool :=
  match VCAP_APPLICATION env with
  | Some (String _ _) => true
  | _ => false
  end.

(** The transports of the logger, lines 118-146. *)
Inductive Transport : Type :=
| Console
| File (filename : string).

Definition transports (env : Env) : list Transport :=
  if isCloudFoundry env then [Console]
  else [Console; File "log/soeproxy.log"].

(** [process.env.PORT || 8080]: the variable's text, or the number. *)
Inductive Port : Type :=
| PortText (s : string)
| PortNumber (n : N).

Definition port (env : Env) : Port :=
  match PORT env with
  | Some (String c s) => PortText (String c s)
  | _ => PortNumber 8080
  end.

(** [`${port}`] *)
Definition Port_toString (p : Port) : string :=
  match p with
  | PortText s => s
  | PortNumber n => JSON.decimal n
  end.

Definition sslKeyPath (env : Env) : string := or_else (SSL_KEY env) "certs/lab02.key".
Definition sslCertPath (env : Env) : string := or_else (SSL_CERT env) "certs/lab02.pem".
Definition sslPassphrase (env : Env) : string := or_else (SSL_PASSPHRASE env) "password".

Inductive Middleware : Type :=
| bodyParser_json (limit : N)
| bodyParser_urlencoded (limit : N) (extended : bool) (parameterLimit : N)
| upload_any
| proxy_doxForward.

(** What start-up does, in order: a line logged, a middleware stack
    mounted with [app.use], a file read with [fs.readFileSync], and a server
    told to listen, with the line its callback logs once it does. *)
Inductive Step : Type :=
| Logged (level : Level) (message : string)
| Warned (message : string)
| Use (path : option string) (stack : list Middleware)
| ReadFile (path : string)
| ListenHTTP (port : Port) (listening : string)
| ListenHTTPS (key cert : bytes) (passphrase : string) (port : N)
             (listening : string).

Definition B (A : Type) : Type := list Step * Completion A.

Definition unit_ {A} (a : A) : B A := ([], Normal a).

Definition step (x : Step) : B unit := ([x], Normal tt).

Definition then_ {A C} (m : B A) (k : A -> B C) : B C :=
  match m with
  | (xs, Normal a) => let '(ys, c) := k a in ((xs ++ ys)%list, c)
  | (xs, Throw e) => (xs, Throw e)
  end.

Definition catch {A} (m : B A) (h : Exn -> B A) : B A :=
  match m with
  | (xs, Throw e) => let '(ys, c) := h e in ((xs ++ ys)%list, c)
  | _ => m
  end.

Declare Scope boot_scope.
Delimit Scope boot_scope with boot.
Notation "x <- m ;; k" := (then_ m (fun x => k))
  (at level 61, m at next level, right associativity) : boot_scope.
Notation "m ;; k" := (then_ m (fun _ => k))
  (at level 61, right associativity) : boot_scope.

(** [err.message]; for a built-in error, its name in place of the engine's
    wording. *)
Definition message_of (e : Exn) : string :=
  match e with
  | Error m => m
  | SyntaxError => "SyntaxError"
  | TypeError => "TypeError"
  end.

Section Program.
(** The file system and TLS, as calls that return or throw:
    [fs.readFileSync(path)] and the secure context [https.createServer]
    builds from the key, the certificate and the passphrase. *)
Variable readFileSync : string -> Completion bytes.
Variable createSecureContext : bytes -> bytes -> string -> Completion unit.

Definition fs_readFileSync (path : string) : B bytes :=
  (step (ReadFile path) ;; ([], readFileSync path))%boot.

(** [app.listen(port, callback)] with [port = process.env.PORT || 8080]. *)
Definition listen_http (env : Env) : B unit :=
  step (ListenHTTP (port env)
          ("HTTP server listening on port " ++ Port_toString (port env))).

(** Lines 148-190. *)
Definition start (env : Env) : B unit :=
  (step (Logged info "Starting Sale Order Extraction Proxy ...") ;;
   step (Logged debug "Setting body parser limits ...") ;;
   step (Use None [bodyParser_json 52428800]) ;;
   step (Use None [bodyParser_urlencoded 52428800 true 52428800]) ;;
   step (Logged debug
     "Connecting proxy middleware function for request manipulation and formward request to DOX ...") ;;
   step (Use (Some "/") [upload_any; proxy_doxForward]) ;;
   step (Logged debug "Determining runtime environment for HTTP/HTTPS startup...") ;;
   if isCloudFoundry env then
     step (Logged info
       ("Detected Cloud Foundry environment — starting HTTP on port "
        ++ Port_toString (port env))) ;;
     listen_http env
   else
     catch
       (step (Logged info "Starting local HTTPS server") ;;
        key <- fs_readFileSync (sslKeyPath env) ;;
        cert <- fs_readFileSync (sslCertPath env) ;;
        ([], createSecureContext key cert (sslPassphrase env)) ;;
        step (ListenHTTPS key cert (sslPassphrase env) 443
                "HTTPS server listening on port 443"))
       (fun err =>
          step (Warned ("Failed to start HTTPS on port 443 (" ++ message_of err
                        ++ "). Falling back to HTTP on port 8080.")) ;;
          listen_http env))%boot.
End Program.

Definition is_listen (x : Step) : bool :=
  match x with
  | ListenHTTP _ _ | ListenHTTPS _ _ _ _ _ => true
  | _ => false
  end.

Definition is_read (x : Step) : bool :=
  match x with
  | ReadFile _ => true
  | _ => false
  end.

Definition steps {A} (m : B A) : list Step := fst m.

(** A file system holding the files of [disk], and a TLS layer that takes
    any key. *)
Fixpoint read_from (disk : list (string * bytes)) (path : string)
  : Completion bytes :=
  match disk with
  | [] => Throw (Error ("ENOENT: no such file or directory, open '" ++ path ++ "'"))
  | (p, content) :: rest =>
      if String.eqb p path then Normal content else read_from rest path
  end.

Definition any_key (key cert : bytes) (passphrase : string) : Completion unit :=
  Normal tt.

(** A laptop with no variable set, and a Cloud Foundry container. *)
Definition local_env : Env := mkEnv None None None None None.

Definition local_env_with_port : Env := mkEnv None None None None (Some "3000").

Definition cf_env : Env :=
  mkEnv (Some "{}") None None None (Some "8443").

Definition lab_disk : list (string * bytes) :=
  [("certs/lab02.key", utf8_bytes "KEY"); ("certs/lab02.pem", utf8_bytes "CERT")].

End Startup.

(* ================================================================== *)
(** * Properties *)

(** ** Strings *)

Lemma prefix_spec (p s : string) :
  String.prefix p s = true <-> exists post, s = p ++ post.
Proof.
  revert s; induction p as [|c p IH]; intros s.
  - split; [intros _; exists s; reflexivity | intros _; now destruct s].
  - destruct s as [|d s]; simpl.
    + split; [discriminate | intros [post H]; discriminate].
    + destruct (ascii_dec c d) as [->|Hne].
      * rewrite IH; split; intros [post H]; exists post.
        -- now rewrite H.
        -- simpl in H; now inversion H.
      * split; [discriminate | intros [post H]; simpl in H; congruence].
Qed.

Lemma includes_spec (s sub : string) :
  includes s sub = true <-> exists pre post, s = pre ++ sub ++ post.
Proof.
  induction s as [|c s IH].
  - cbn [includes]; rewrite orb_false_r, prefix_spec; split.
    + intros [post H]; exists "", post; exact H.
    + intros [pre [post H]]; destruct pre as [|d pre]; [|discriminate].
      exists post; exact H.
  - cbn [includes]; rewrite orb_true_iff, prefix_spec, IH; split.
    + intros [[post H] | [pre [post H]]].
      * exists "", post; exact H.
      * exists (String c pre), post; simpl; now rewrite H.
    + intros [pre [post H]]; destruct pre as [|d pre].
      * left; exists post; exact H.
      * right; simpl in H; inversion H; subst; now exists pre, post.
Qed.

Lemma length_utf8_bytes (s : string) :
  List.length (utf8_bytes s) = String.length s.
Proof.
  unfold utf8_bytes, list_byte_of_string.
  rewrite length_map.
  induction s as [|c s IH]; simpl; [reflexivity | now rewrite IH].
Qed.

(** ** Own properties *)

Lemma get_replace_same k v ps :
  JSON.has k ps = true -> JSON.get k (JSON.replace k v ps) = Some v.
Proof.
  unfold JSON.has; induction ps as [|[k' v'] ps IH]; simpl; [discriminate|].
  destruct (String.eqb_spec k k') as [->|Hne]; simpl.
  - now rewrite String.eqb_refl.
  - destruct (String.eqb_spec k k'); [contradiction | exact IH].
Qed.

Lemma get_replace_other k k0 v ps :
  k0 <> k -> JSON.get k0 (JSON.replace k v ps) = JSON.get k0 ps.
Proof.
  intros Hne; induction ps as [|[k' v'] ps IH]; simpl; [reflexivity|].
  destruct (String.eqb_spec k k') as [->|Hk]; simpl.
  - destruct (String.eqb_spec k0 k'); [contradiction | reflexivity].
  - destruct (String.eqb_spec k0 k'); [reflexivity | exact IH].
Qed.

Lemma get_insert_index i k k0 v ps :
  JSON.get k ps = None ->
  JSON.get k0 (JSON.insert_index i k v ps)
  = if String.eqb k0 k then Some v else JSON.get k0 ps.
Proof.
  induction ps as [|[k' v'] ps IH]; simpl; [reflexivity|].
  destruct (String.eqb_spec k k') as [->|Hk]; [discriminate|]; intros Hnone.
  destruct (JSON.array_index k') as [j|]; [destruct (j <? i)%N|]; simpl;
    try reflexivity.
  rewrite (IH Hnone).
  destruct (String.eqb_spec k0 k') as [->|]; [|reflexivity].
  destruct (String.eqb_spec k' k); [congruence | reflexivity].
Qed.

Lemma get_append k k0 v ps :
  JSON.get k ps = None ->
  JSON.get k0 (ps ++ [(k, v)])%list
  = if String.eqb k0 k then Some v else JSON.get k0 ps.
Proof.
  induction ps as [|[k' v'] ps IH]; simpl; [reflexivity|].
  destruct (String.eqb_spec k k') as [->|Hk]; [discriminate|]; intros Hnone.
  rewrite (IH Hnone).
  destruct (String.eqb_spec k0 k') as [->|]; [|reflexivity].
  destruct (String.eqb_spec k' k); [congruence | reflexivity].
Qed.

(** Reading a property after [o[k] = v]. *)
Lemma get_set k k0 v ps :
  JSON.get k0 (JSON.set k v ps)
  = if String.eqb k0 k then Some v else JSON.get k0 ps.
Proof.
  unfold JSON.set.
  destruct (JSON.has k ps) eqn:Hhas.
  - destruct (String.eqb_spec k0 k) as [->|Hne].
    + now apply get_replace_same.
    + now apply get_replace_other.
  - assert (Hnone : JSON.get k ps = None).
    { unfold JSON.has in Hhas; destruct (JSON.get k ps); [discriminate | reflexivity]. }
    destruct (JSON.array_index k).
    + now apply get_insert_index.
    + now apply get_append.
Qed.

(** Reading a property after [delete o[k]]. *)
Lemma get_remove k k0 ps :
  JSON.get k0 (JSON.remove k ps)
  = if String.eqb k0 k then None else JSON.get k0 ps.
Proof.
  induction ps as [|[k' v'] ps IH]; simpl.
  - now destruct (String.eqb k0 k).
  - destruct (String.eqb_spec k k') as [->|Hk]; simpl.
    + rewrite IH. destruct (String.eqb_spec k0 k'); reflexivity.
    + rewrite IH. destruct (String.eqb_spec k0 k') as [->|].
      * destruct (String.eqb_spec k' k); [congruence | reflexivity].
      * reflexivity.
Qed.

(** ** The form *)

Section FormFacts.
Context {rendering : FormData.HeaderRendering}.

Lemma Built_lengths f :
  Built f ->
  (FormData.overheadLength f + FormData.valueLength f)%N
  = N.of_nat (List.length
      (flat_map (FormData.part_bytes (FormData.boundary f)) (FormData.parts f))).
Proof.
  induction 1 as [b | f field value options Hf IH]; [reflexivity|].
  cbn [FormData.append FormData.overheadLength FormData.valueLength
       FormData.boundary FormData.parts].
  rewrite flat_map_app, length_app; cbn [flat_map].
  rewrite app_nil_r; unfold FormData.part_bytes at 2.
  cbn [FormData.field FormData.value FormData.options].
  rewrite !length_app, !length_utf8_bytes.
  unfold FormData.byteLength. lia.
Qed.

(** The package's length is the length of what it emits. *)
Lemma getLengthSync_stream f :
  Built f ->
  FormData.getLengthSync f = N.of_nat (List.length (FormData.stream f)).
Proof.
  intros Hf; unfold FormData.getLengthSync, FormData.stream.
  rewrite (Built_lengths f Hf), length_app.
  destruct (FormData.has_parts f); [rewrite length_utf8_bytes|]; simpl; lia.
Qed.

Lemma boundary_append f field value options :
  FormData.boundary (FormData.append f field value options) = FormData.boundary f.
Proof. reflexivity. Qed.

Lemma parts_append f field value options :
  FormData.parts (FormData.append f field value options)
  = (FormData.parts f ++ [FormData.mkPart field value options])%list.
Proof. reflexivity. Qed.

(** A part of the form is a contiguous run of the emitted bytes. *)
Lemma stream_part f p :
  In p (FormData.parts f) ->
  exists pre post,
    FormData.stream f
    = (pre ++ FormData.part_bytes (FormData.boundary f) p ++ post)%list.
Proof.
  intros Hin; unfold FormData.stream.
  destruct (in_split _ _ Hin) as [l1 [l2 ->]].
  exists (flat_map (FormData.part_bytes (FormData.boundary f)) l1).
  eexists.
  rewrite flat_map_app; cbn [flat_map].
  rewrite <- !app_assoc. reflexivity.
Qed.
End FormFacts.

(** ** Lists of effects *)

(** Finds a concrete element in a concrete list. *)
Ltac find_member := cbv; repeat (first [left; reflexivity | right]).

Lemma in_logs fx x :
  Forall (fun y => is_log y = true) fx -> In x fx -> is_log x = true.
Proof. intros H Hin; rewrite Forall_forall in H; now apply H. Qed.

Lemma form_listeners_app fx1 fx2 :
  form_listeners (fx1 ++ fx2) = (form_listeners fx1 ++ form_listeners fx2)%list.
Proof.
  induction fx1 as [|x fx1 IH]; [reflexivity|].
  destruct x; simpl; now rewrite ?IH.
Qed.

Lemma form_listeners_logs fx :
  Forall (fun y => is_log y = true) fx -> form_listeners fx = [].
Proof.
  induction 1 as [|x fx Hx _ IH]; [reflexivity|].
  destruct x; try discriminate; exact IH.
Qed.

Lemma filter_outbound_logs fx :
  Forall (fun y => is_log y = true) fx -> filter is_outbound fx = [].
Proof.
  induction 1 as [|x fx Hx _ IH]; [reflexivity|].
  destruct x; try discriminate; exact IH.
Qed.

Lemma Forall2_In_l {A B} (R : A -> B -> Prop) l l' a :
  Forall2 R l l' -> In a l -> exists b, In b l' /\ R a b.
Proof.
  induction 1 as [|x y l l' Hxy _ IH]; intros Hin; [destruct Hin|].
  destruct Hin as [->|Hin].
  - exists y; split; [now left | exact Hxy].
  - destruct (IH Hin) as [b [Hb Hab]]; exists b; split; [now right | exact Hab].
Qed.

(** ** The handler *)

Section HandlerFacts.
Context {rendering : FormData.HeaderRendering}.
Variable getLengthSync : FormData.t -> Completion jsnum.
Variable DOX_SCHEMA : option string.
Variable boundary : string.

Let schema : JSON.value := JSON.VStr (doxSchemaName DOX_SCHEMA).

(** One iteration of the loop, by the outcome of its two fallible steps. *)
Lemma rewrite_field_eq form key text :
  rewrite_field DOX_SCHEMA form (key, text)
  = match JSON.parse text with
    | None => ([], Throw SyntaxError)
    | Some v =>
        match completion (assign v "schemaName" schema) with
        | Throw e =>
            ([Log debug ("Original body request: " ++ JSON.stringify v)], Throw e)
        | Normal v' =>
            ([Log debug ("Original body request: " ++ JSON.stringify v);
              Log debug ("Modified body request: "
                         ++ JSON.stringify (delete v' "extraction"))],
             Normal (FormData.append form key
                       (FormData.Text (JSON.stringify (delete v' "extraction")))
                       FormData.no_options))
        end
    end.
Proof.
  unfold rewrite_field, JSON_parse.
  destruct (JSON.parse text) as [v|]; [|reflexivity].
  destruct v; reflexivity.
Qed.

Lemma assign_effects v k x : effects (assign v k x) = [].
Proof. destruct v; reflexivity. Qed.

Lemma assign_throws v k x e :
  completion (assign v k x) = Throw e -> v = JSON.VNull /\ e = TypeError.
Proof. destruct v; simpl; intros H; inversion H; auto. Qed.

Lemma fields_loop_logs l : forall form,
  Forall (fun x => is_log x = true)
         (effects (foldM (rewrite_field DOX_SCHEMA) l form)).
Proof.
  induction l as [|[key text] l IH]; intros form; [constructor|].
  cbn [foldM]; rewrite rewrite_field_eq.
  destruct (JSON.parse text) as [v|]; [|constructor].
  destruct (completion (assign v "schemaName" schema)) as [v'|e].
  - unfold bind.
    specialize (IH (FormData.append form key
      (FormData.Text (JSON.stringify (delete v' "extraction"))) FormData.no_options)).
    destruct (foldM _ l _) as [fx c]; simpl in *.
    repeat constructor; exact IH.
  - repeat constructor.
Qed.

Lemma fields_loop_normal l : forall form form',
  completion (foldM (rewrite_field DOX_SCHEMA) l form) = Normal form' ->
  FormData.boundary form' = FormData.boundary form
  /\ (Built form -> Built form')
  /\ exists ps, FormData.parts form' = (FormData.parts form ++ ps)%list
                /\ Forall2 (field_part DOX_SCHEMA) l ps.
Proof.
  induction l as [|[key text] l IH]; intros form form'.
  - simpl; intros H; inversion H; subst.
    repeat split; [auto|]. exists []; rewrite app_nil_r; split; [reflexivity|constructor].
  - cbn [foldM]; rewrite rewrite_field_eq.
    destruct (JSON.parse text) as [v|] eqn:Hparse; [|discriminate].
    destruct (completion (assign v "schemaName" schema)) as [v'|e] eqn:Hassign;
      [|discriminate].
    unfold bind.
    specialize (IH (FormData.append form key
      (FormData.Text (JSON.stringify (delete v' "extraction"))) FormData.no_options)
      form').
    destruct (foldM _ l _) as [fx c]; simpl in *.
    intros Hc; destruct (IH Hc) as [Hb [Hbuilt [ps [Hps Hall]]]].
    repeat split.
    + exact Hb.
    + intros Hf; apply Hbuilt; now constructor.
    + eexists; split.
      * rewrite Hps, <- app_assoc; reflexivity.
      * constructor; [|exact Hall]. now exists v, v'.
Qed.

Lemma fields_loop_throw l : forall form kv,
  In kv l -> JSON.parse (snd kv) = None ->
  exists e, completion (foldM (rewrite_field DOX_SCHEMA) l form) = Throw e
            /\ (e = SyntaxError
                \/ (e = TypeError
                    /\ exists kv', In kv' l /\ JSON.parse (snd kv') = Some JSON.VNull)).
Proof.
  induction l as [|[key text] l IH]; intros form kv Hin Hnone; [destruct Hin|].
  cbn [foldM]; rewrite rewrite_field_eq.
  destruct (JSON.parse text) as [v|] eqn:Hparse.
  - destruct Hin as [<-|Hin]; [simpl in Hnone; congruence|].
    destruct (completion (assign v "schemaName" schema)) as [v'|e] eqn:Hassign.
    + unfold bind.
      destruct (IH (FormData.append form key
        (FormData.Text (JSON.stringify (delete v' "extraction"))) FormData.no_options)
        kv Hin Hnone) as [e [He Hkind]].
      destruct (foldM _ l _) as [fx c]; simpl in *.
      exists e; split; [exact He|].
      destruct Hkind as [->|[-> [kv' [Hin' Hnull]]]]; [now left|].
      right; split; [reflexivity|]. exists kv'; auto.
    + exists e; split; [reflexivity|].
      apply assign_throws in Hassign; destruct Hassign as [-> ->].
      right; split; [reflexivity|]. exists (key, text); split; [now left|exact Hparse].
  - exists SyntaxError; auto.
Qed.

(** Lines 64-71 never throw, and set at most the one header. *)
Lemma set_content_length_eq form :
  set_content_length getLengthSync form
  = (match getLengthSync form with
     | Normal n =>
         if truthy n && negb (isNaN n)
         then [SetHeader "Content-Length" (HNum n)] else []
     | Throw _ => []
     end, Normal tt).
Proof.
  unfold set_content_length, call, bind, try_catch.
  destruct (getLengthSync form) as [n|e]; [|reflexivity].
  destruct (truthy n && negb (isNaN n)); reflexivity.
Qed.

(** The handler on the branch of line 83. *)
Lemma onProxyReq_passthrough req :
  is_multipart_post req = false ->
  onProxyReq getLengthSync DOX_SCHEMA boundary req
  = ([Log debug "No multipart/form-data request, using fixRequestBody ...";
      FixRequestBody], Normal tt).
Proof. intros H; unfold onProxyReq; rewrite H; reflexivity. Qed.

(** The handler on the branch of line 33, by the outcome of the loop. *)
Lemma onProxyReq_multipart req :
  is_multipart_post req = true ->
  onProxyReq getLengthSync DOX_SCHEMA boundary req
  = match foldM (rewrite_field DOX_SCHEMA) (body req) (FormData.create boundary) with
    | (fx, Throw e) =>
        (((Log debug "Handling multipart/form-data request ..."
          :: Log debug "Modification of body request ..." :: fx)
         ++ [Log error ("Error in onProxyReq: " ++ Exn_toString e)%string])%list,
         Normal tt)
    | (fx, Normal form0) =>
        let form := append_files form0 (files req) in
        (((Log debug "Handling multipart/form-data request ..."
          :: Log debug "Modification of body request ..." :: fx)
         ++ [Log debug "Adding files to multipart request ...";
             Log debug "Adding headers to request ...";
             SetHeader "content-type"
               (HStr ("multipart/form-data; boundary="
                      ++ FormData.boundary form)%string);
             Log debug "Calculating Content-Length for the request ..."]
         ++ effects (set_content_length getLengthSync form)
         ++ [Log debug "Pipelining new request ...";
             Pipe form;
             FormOn form_error_listener;
             FormOn form_end_listener])%list, Normal tt)
    end.
Proof.
  intros H; unfold onProxyReq; rewrite H.
  unfold logger_debug, logger_error, perform.
  destruct (foldM _ (body req) _) as [fx [form0|e]].
  - cbv zeta.
    cbn [bind try_catch forEach FormData.getHeaders fst snd].
    rewrite !set_content_length_eq.
    destruct (getLengthSync _) as [n|e]; [destruct (truthy n && negb (isNaN n))|];
      reflexivity.
  - reflexivity.
Qed.

(** Every effect of the handler, accounted for. *)
Lemma handler_effects_inv req x :
  In x (effects (onProxyReq getLengthSync DOX_SCHEMA boundary req)) ->
  is_log x = true
  \/ (is_multipart_post req = false /\ x = FixRequestBody)
  \/ (is_multipart_post req = true
      /\ exists fx form0,
           foldM (rewrite_field DOX_SCHEMA) (body req) (FormData.create boundary)
           = (fx, Normal form0)
           /\ let form := append_files form0 (files req) in
              x = SetHeader "content-type"
                    (HStr ("multipart/form-data; boundary=" ++ FormData.boundary form))
              \/ (exists n, x = SetHeader "Content-Length" (HNum n)
                            /\ getLengthSync form = Normal n
                            /\ truthy n && negb (isNaN n) = true)
              \/ x = Pipe form
              \/ x = FormOn form_error_listener
              \/ x = FormOn form_end_listener).
Proof.
  destruct (is_multipart_post req) eqn:Hm.
  - rewrite (onProxyReq_multipart _ Hm).
    pose proof (fields_loop_logs (body req) (FormData.create boundary)) as Hlogs.
    destruct (foldM _ (body req) _) as [fx [form0|e]]; cbn [effects fst] in *;
      intros Hin.
    + rewrite set_content_length_eq in Hin; cbn [effects fst] in Hin.
      rewrite !in_app_iff in Hin.
      destruct Hin as [Hin | [Hin | [Hin | Hin]]].
      * left. destruct Hin as [<- | [<- | Hin]]; try reflexivity.
        now apply (in_logs fx).
      * destruct Hin as [<- | [<- | [<- | [<- | []]]]]; try (now left).
        right; right; split; [reflexivity|]. exists fx, form0; split; [reflexivity|].
        now left.
      * right; right; split; [reflexivity|]. exists fx, form0; split; [reflexivity|].
        right; left.
        destruct (getLengthSync _) as [n|]; [|destruct Hin].
        destruct (truthy n && negb (isNaN n)) eqn:Hn; [|destruct Hin].
        destruct Hin as [<- | []]. exists n; auto.
      * destruct Hin as [<- | [<- | [<- | [<- | []]]]]; try (now left);
          right; right; (split; [reflexivity|]); exists fx, form0;
          (split; [reflexivity|]); cbv zeta; auto.
    + left. rewrite in_app_iff in Hin. destruct Hin as [Hin | [<- | []]].
      * destruct Hin as [<- | [<- | Hin]]; try reflexivity.
        now apply (in_logs fx).
      * reflexivity.
  - rewrite (onProxyReq_passthrough _ Hm); simpl.
    intros [<- | [<- | []]]; [now left | right; left; auto].
Qed.

Lemma append_files_parts form fs :
  FormData.parts (append_files form (Some fs))
  = (FormData.parts form ++ map file_part fs)%list.
Proof.
  unfold append_files; revert form.
  induction fs as [|file fs IH]; intros form; simpl.
  - now rewrite app_nil_r.
  - rewrite IH; unfold append_file at 1; rewrite parts_append.
    now rewrite <- app_assoc.
Qed.

Lemma append_files_all form req :
  FormData.parts (append_files form (files req))
  = (FormData.parts form ++ map file_part (uploaded req))%list.
Proof.
  unfold uploaded; destruct (files req) as [fs|].
  - apply append_files_parts.
  - simpl; now rewrite app_nil_r.
Qed.

Lemma append_files_boundary form fs :
  FormData.boundary (append_files form fs) = FormData.boundary form.
Proof.
  destruct fs as [fs|]; [|reflexivity].
  unfold append_files; revert form.
  induction fs as [|file fs IH]; intros form; simpl; [reflexivity|].
  now rewrite IH.
Qed.

Lemma append_files_Built form fs : Built form -> Built (append_files form fs).
Proof.
  destruct fs as [fs|]; [|auto].
  unfold append_files; revert form.
  induction fs as [|file fs IH]; intros form Hf; simpl; [exact Hf|].
  apply IH; unfold append_file; now constructor.
Qed.

(** What a forwarded form is made of. *)
Lemma piped_form req form :
  In (Pipe form) (effects (onProxyReq getLengthSync DOX_SCHEMA boundary req)) ->
  is_multipart_post req = true
  /\ exists fx form0,
       foldM (rewrite_field DOX_SCHEMA) (body req) (FormData.create boundary)
       = (fx, Normal form0)
       /\ form = append_files form0 (files req).
Proof.
  intros Hin; apply handler_effects_inv in Hin.
  destruct Hin as [Hin | [[_ Hin] | [Hm [fx [form0 [Hloop Hin]]]]]]; try discriminate.
  split; [exact Hm|]. exists fx, form0; split; [exact Hloop|].
  cbv zeta in Hin.
  destruct Hin as [Hin | [[n [Hin _]] | [Hin | [Hin | Hin]]]]; try discriminate.
  now inversion Hin.
Qed.

(** A forwarded form holds the rewritten fields, then the files. *)
Lemma piped_parts req form :
  In (Pipe form) (effects (onProxyReq getLengthSync DOX_SCHEMA boundary req)) ->
  Built form
  /\ FormData.boundary form = boundary
  /\ exists ps,
       FormData.parts form = (ps ++ map file_part (uploaded req))%list
       /\ Forall2 (field_part DOX_SCHEMA) (body req) ps.
Proof.
  intros Hpipe.
  destruct (piped_form _ _ Hpipe) as [_ [fx [form0 [Hloop ->]]]].
  assert (Hc : completion (foldM (rewrite_field DOX_SCHEMA) (body req)
                             (FormData.create boundary)) = Normal form0)
    by now rewrite Hloop.
  destruct (fields_loop_normal _ _ _ Hc) as [Hb [Hbuilt [ps [Hps Hall]]]].
  split; [|split].
  - apply append_files_Built, Hbuilt; constructor.
  - now rewrite append_files_boundary, Hb.
  - exists ps; split; [|exact Hall].
    now rewrite append_files_all, Hps.
Qed.

(** A forwarded form has the handler's two listeners, and no other. *)
Lemma piped_listeners req form :
  In (Pipe form) (effects (onProxyReq getLengthSync DOX_SCHEMA boundary req)) ->
  form_listeners (effects (onProxyReq getLengthSync DOX_SCHEMA boundary req))
  = [form_error_listener; form_end_listener].
Proof.
  intros Hpipe.
  destruct (piped_form _ _ Hpipe) as [Hm [fx [form0 [Hloop ->]]]].
  pose proof (fields_loop_logs (body req) (FormData.create boundary)) as Hlogs.
  rewrite (onProxyReq_multipart _ Hm), Hloop in *.
  cbn [effects fst] in *; cbv zeta.
  rewrite set_content_length_eq; cbn [effects fst].
  rewrite !form_listeners_app.
  cbn [form_listeners]; rewrite (form_listeners_logs fx Hlogs).
  destruct (getLengthSync _) as [n|]; [destruct (truthy n && negb (isNaN n))|];
    reflexivity.
Qed.

(** The handler's run when some field is not JSON. *)
Lemma failed_run req kv :
  is_multipart_post req = true ->
  In kv (body req) ->
  JSON.parse (snd kv) = None ->
  exists fx e,
    onProxyReq getLengthSync DOX_SCHEMA boundary req
    = ((fx ++ [Log error ("Error in onProxyReq: " ++ Exn_toString e)%string])%list,
       Normal tt)
    /\ Forall (fun x => is_log x = true) fx
    /\ (e = SyntaxError
        \/ (e = TypeError
            /\ exists kv', In kv' (body req)
                           /\ JSON.parse (snd kv') = Some JSON.VNull)).
Proof.
  intros Hm Hin Hnone.
  rewrite (onProxyReq_multipart _ Hm).
  pose proof (fields_loop_logs (body req) (FormData.create boundary)) as Hlogs.
  destruct (fields_loop_throw (body req) (FormData.create boundary) kv Hin Hnone)
    as [e [He Hkind]].
  destruct (foldM _ (body req) _) as [fx c]; cbn [effects completion fst snd] in *.
  subst c. eexists; exists e; split; [reflexivity|]. split; [|exact Hkind].
  repeat constructor; exact Hlogs.
Qed.
End HandlerFacts.

(* ================================================================== *)
(** * Runs on the sample requests *)

Example parse_orders_index_keys :
  option_map JSON.stringify
    (JSON.parse (quoted "{ 'b': 1, '2': [true, null], '1': -2.50e1, 'b': 'x' }"))
  = Some (quoted "{'1':-25,'2':[true,null],'b':'x'}").
Proof. reflexivity. Qed.

Example parse_rejects :
  map JSON.parse ["{oops"; "01"; "[1,]"; quoted "{'a':1,}"; "nul"; "1 2"; ""]
  = [None; None; None; None; None; None; None].
Proof. reflexivity. Qed.

Example parse_primitives :
  map JSON.parse [" 5 "; "true"; quoted "'a'"; "null"; "[]"]
  = [Some (JSON.VNum (JSON.mkNumber false 5 0)); Some (JSON.VBool true);
     Some (JSON.VStr "a"); Some JSON.VNull; Some (JSON.VArr [] [])].
Proof. reflexivity. Qed.

Example stringify_numbers :
  map (fun t => option_map JSON.stringify (JSON.parse t))
      ["1e21"; "123456.789e-3"; "-0.0"; "12e-9"; "100"; "0.000001"]
  = [Some "1e+21"; Some "123.456789"; Some "0"; Some "1.2e-8"; Some "100";
     Some "0.000001"].
Proof. reflexivity. Qed.

Example upload_request_run :
  onProxyReq (rendering := example_rendering) lib_getLengthSync None "b" upload_request
  = ([Log debug "Handling multipart/form-data request ...";
      Log debug "Modification of body request ...";
      Log debug ("Original body request: "
                 ++ quoted "{'extraction':'foo','user':'bob'}");
      Log debug ("Modified body request: "
                 ++ quoted "{'user':'bob','schemaName':'SO_Auto_Extraction_Schema'}");
      Log debug "Adding files to multipart request ...";
      Log debug "Adding headers to request ...";
      SetHeader "content-type" (HStr "multipart/form-data; boundary=b");
      Log debug "Calculating Content-Length for the request ...";
      SetHeader "Content-Length" (HNum (Num 242));
      Log debug "Pipelining new request ...";
      Pipe upload_form;
      FormOn form_error_listener;
      FormOn form_end_listener], Normal tt).
Proof. reflexivity. Qed.

Example upload_form_stream :
  let CRLF := FormData.LINE_BREAK in
  string_of_list_byte (FormData.stream (rendering := example_rendering) upload_form)
  = "--b" ++ CRLF
    ++ quoted "Content-Disposition: form-data; name='options'" ++ CRLF
    ++ CRLF
    ++ quoted "{'user':'bob','schemaName':'SO_Auto_Extraction_Schema'}" ++ CRLF
    ++ "--b" ++ CRLF
    ++ quoted "Content-Disposition: form-data; name='doc'; filename='invoice.pdf'"
    ++ CRLF
    ++ "Content-Type: application/pdf" ++ CRLF
    ++ CRLF
    ++ "%PDF-1.4 sample" ++ CRLF
    ++ "--b--" ++ CRLF.
Proof. reflexivity. Qed.

Example configured_schema :
  map doxSchemaName [None; Some ""; Some "Custom_Schema"]
  = ["SO_Auto_Extraction_Schema"; "SO_Auto_Extraction_Schema"; "Custom_Schema"].
Proof. reflexivity. Qed.

(* ================================================================== *)
(** * Main results *)

Lemma doxSchemaName_spec (DOX_SCHEMA : option string) :
  doxSchemaName DOX_SCHEMA
  = match DOX_SCHEMA with
    | Some EmptyString | None => "SO_Auto_Extraction_Schema"
    | Some s => s
    end.
Proof. reflexivity. Qed.

(** C1. A text field whose value parses as a JSON object is rewritten to
    the serialisation of a mapping in which [schemaName] is the configured
    schema name ([DOX_SCHEMA], or the default when it is unset or empty),
    [extraction] is absent, and every other key has the value it had; that
    serialisation is the field's part in every form the handler forwards. *)
Theorem schemaName_injected
  {rendering : FormData.HeaderRendering} (DOX_SCHEMA : option string)
  (text : string) (props : JSON.properties) :
  JSON.parse text = Some (JSON.VObj props) ->
  let props' :=
    JSON.remove "extraction"
      (JSON.set "schemaName" (JSON.VStr (doxSchemaName DOX_SCHEMA)) props) in
  let text' := JSON.stringify (JSON.VObj props') in
  JSON.get "schemaName" props' = Some (JSON.VStr (doxSchemaName DOX_SCHEMA))
  /\ JSON.get "extraction" props' = None
  /\ (forall k, k <> "schemaName" -> k <> "extraction" ->
        JSON.get k props' = JSON.get k props)
  /\ (forall form key,
        completion (rewrite_field DOX_SCHEMA form (key, text))
        = Normal (FormData.append form key (FormData.Text text') FormData.no_options))
  /\ (forall getLengthSync boundary req key form,
        In (key, text) (body req) ->
        In (Pipe form) (effects (onProxyReq getLengthSync DOX_SCHEMA boundary req)) ->
        In (FormData.mkPart key (FormData.Text text') FormData.no_options)
           (FormData.parts form)).
Proof.
  intros Hparse props' text'.
  repeat split.
  - unfold props'; rewrite get_remove, get_set; reflexivity.
  - unfold props'; rewrite get_remove; reflexivity.
  - intros k H1 H2; unfold props'; rewrite get_remove, get_set.
    destruct (String.eqb_spec k "extraction"); [contradiction|].
    destruct (String.eqb_spec k "schemaName"); [contradiction|reflexivity].
  - intros form key; rewrite rewrite_field_eq, Hparse; reflexivity.
  - intros getLengthSync boundary req key form Hin Hpipe.
    destruct (piped_parts _ _ _ _ _ Hpipe) as [_ [_ [ps [Hps Hall]]]].
    destruct (Forall2_In_l _ _ _ _ Hall Hin) as [p [Hp [v [v' [Hv [Hv' ->]]]]]].
    cbn [fst snd] in *. rewrite Hparse in Hv; inversion Hv; subst v.
    simpl in Hv'; inversion Hv'; subst v'.
    rewrite Hps, in_app_iff; now left.
Qed.

(** The documented scenario: a field with [extraction] and [user]. *)
Lemma schemaName_injected_witness :
  JSON.parse (quoted "{'extraction':'foo','user':'bob'}")
  = Some (JSON.VObj [("extraction", JSON.VStr "foo"); ("user", JSON.VStr "bob")])
  /\ JSON.stringify
       (JSON.VObj
          (JSON.remove "extraction"
             (JSON.set "schemaName" (JSON.VStr (doxSchemaName None))
                [("extraction", JSON.VStr "foo"); ("user", JSON.VStr "bob")])))
     = quoted "{'user':'bob','schemaName':'SO_Auto_Extraction_Schema'}"
  /\ JSON.get "user"
       (JSON.remove "extraction"
          (JSON.set "schemaName" (JSON.VStr (doxSchemaName None))
             [("extraction", JSON.VStr "foo"); ("user", JSON.VStr "bob")]))
     = Some (JSON.VStr "bob").
Proof.
  split; [reflexivity|]. split; [reflexivity|].
  pose proof (@schemaName_injected example_rendering None
                (quoted "{'extraction':'foo','user':'bob'}")
                [("extraction", JSON.VStr "foo"); ("user", JSON.VStr "bob")]
                eq_refl) as H.
  cbv zeta in H.
  destruct H as [_ [_ [H _]]].
  rewrite (H "user"); [reflexivity | discriminate | discriminate].
Defined.

(** C2, counterexample: a [PUT] whose Content-Type contains
    [multipart/form-data] is handed to [fixRequestBody]. *)
Lemma put_multipart_is_passed_through :
  includes (or_else (get put_request "Content-Type") "") "multipart/form-data" = true
  /\ onProxyReq (rendering := example_rendering) lib_getLengthSync None "b" put_request
     = ([Log debug "No multipart/form-data request, using fixRequestBody ...";
         FixRequestBody], Normal tt).
Proof. split; reflexivity. Qed.

(** C2, amended. The handler takes the Transformer/Encoder branch exactly
    when the method is [POST] and the Content-Type header (the empty string
    when absent) contains [multipart/form-data], case-sensitively; on that
    branch it never calls [fixRequestBody]; every other request gets the one
    call to [fixRequestBody] and no field is rewritten. *)
Theorem dispatch_rule
  {rendering : FormData.HeaderRendering}
  (getLengthSync : FormData.t -> Completion jsnum)
  (DOX_SCHEMA : option string) (boundary : string) (req : Request) :
  let run := onProxyReq getLengthSync DOX_SCHEMA boundary req in
  (is_multipart_post req = true <->
     method req = "POST"
     /\ exists pre post,
          or_else (get req "Content-Type") "" = pre ++ "multipart/form-data" ++ post)
  /\ (if is_multipart_post req
      then hd_error (effects run)
           = Some (Log debug "Handling multipart/form-data request ...")
           /\ ~ In FixRequestBody (effects run)
      else run = ([Log debug "No multipart/form-data request, using fixRequestBody ...";
                   FixRequestBody], Normal tt)).
Proof.
  intros run; split.
  - unfold is_multipart_post; cbv zeta.
    rewrite andb_true_iff, includes_spec, String.eqb_eq. reflexivity.
  - destruct (is_multipart_post req) eqn:Hm.
    + split.
      * unfold run; rewrite (onProxyReq_multipart _ _ _ _ Hm).
        now destruct (foldM _ (body req) _) as [fx [form0|e]].
      * intros Hin; apply handler_effects_inv in Hin.
        destruct Hin as [Hin | [[Hin _] | [_ [fx [form0 [_ Hin]]]]]];
          [discriminate | congruence |].
        cbv zeta in Hin.
        destruct Hin as [Hin | [[n [Hin _]] | [Hin | [Hin | Hin]]]]; discriminate.
    + unfold run; now apply onProxyReq_passthrough.
Qed.

(** C3, counterexample: with the middleware as configured, an error of
    the upstream response stream leads to no call that destroys the client
    connection. *)
Lemma response_error_not_handled :
  existsb is_res_destroy
    (on_response_error
       (doxForward (rendering := example_rendering) lib_getLengthSync None "b")
       (Error "socket hang up"))
  = false.
Proof. reflexivity. Qed.

(** C3, amended. [onProxyRes] pipes the upstream response to the client and
    its error listener destroys the client connection, but [doxForward]
    registers no [proxyRes] handler: on the proxied-response path no
    listener of the program runs when the response stream fails. *)
Theorem onProxyRes_not_registered
  {rendering : FormData.HeaderRendering}
  (getLengthSync : FormData.t -> Completion jsnum)
  (DOX_SCHEMA : option string) (boundary : string) (err : Exn) :
  let config := doxForward getLengthSync DOX_SCHEMA boundary in
  on_proxyRes config = None
  /\ on_proxyReq config = Some (onProxyReq getLengthSync DOX_SCHEMA boundary)
  /\ on_response_error config err = []
  /\ dispatch (proxyRes_listeners (effects onProxyRes)) (Failed err)
     = [console_error "proxyRes stream error:" err; res_destroy err]
  /\ dispatch (proxyRes_listeners (effects onProxyRes)) End = [].
Proof. repeat split. Qed.

(** C4. When a text field of a multipart request does not parse as JSON,
    the transformation fails as a whole: the exception is caught at the
    handler's outer [try] and logged at level [error], which is the last
    thing the handler does before it returns normally; everything it did
    before is logging, so no form is forwarded and nothing is sent to the
    client. The exception is the [SyntaxError] of the parse, unless a field
    before it is [null], whose [TypeError] comes first. *)
Theorem parse_failure_is_caught_and_logged
  {rendering : FormData.HeaderRendering}
  (getLengthSync : FormData.t -> Completion jsnum)
  (DOX_SCHEMA : option string) (boundary : string)
  (req : Request) (kv : string * string) :
  is_multipart_post req = true ->
  In kv (body req) ->
  JSON.parse (snd kv) = None ->
  let run := onProxyReq getLengthSync DOX_SCHEMA boundary req in
  completion run = Normal tt
  /\ (exists fx e,
        effects run
        = (fx ++ [Log error ("Error in onProxyReq: " ++ Exn_toString e)%string])%list
        /\ Forall (fun x => is_log x = true) fx
        /\ (e = SyntaxError
            \/ (e = TypeError
                /\ exists kv', In kv' (body req)
                               /\ JSON.parse (snd kv') = Some JSON.VNull)))
  /\ (forall form, ~ In (Pipe form) (effects run)).
Proof.
  intros Hm Hin Hnone run.
  destruct (failed_run getLengthSync DOX_SCHEMA boundary req kv Hm Hin Hnone)
    as [fx [e [Hrun [Hlogs Hkind]]]].
  unfold run; rewrite Hrun; cbn [effects completion fst snd].
  split; [reflexivity|]. split.
  - exists fx, e; auto.
  - intros form Hx; rewrite in_app_iff in Hx; destruct Hx as [Hx | [Hx | []]].
    + apply (in_logs fx _ Hlogs) in Hx; discriminate.
    + discriminate.
Qed.

Lemma parse_failure_is_caught_and_logged_witness :
  onProxyReq (rendering := example_rendering) lib_getLengthSync None "b" broken_request
  = ([Log debug "Handling multipart/form-data request ...";
      Log debug "Modification of body request ...";
      Log debug ("Original body request: " ++ quoted "{'user':'bob'}");
      Log debug ("Modified body request: "
                 ++ quoted "{'user':'bob','schemaName':'SO_Auto_Extraction_Schema'}");
      Log error "Error in onProxyReq: SyntaxError"], Normal tt)
  /\ completion (onProxyReq (rendering := example_rendering) lib_getLengthSync None
                   "b" broken_request) = Normal tt.
Proof.
  split; [reflexivity|].
  exact (proj1 (@parse_failure_is_caught_and_logged example_rendering
                  lib_getLengthSync None "b" broken_request ("extra", "{oops")
                  eq_refl (or_intror (or_introl eq_refl)) eq_refl)).
Defined.

(** C5. In a multipart request, a text field that does not parse as JSON
    leaves the outbound request untouched: no header is set, no form is piped
    into it, no listener is attached. A form is piped only after every field
    has been parsed and rewritten: it then holds a part for each field and
    for each file. *)
Theorem parse_failure_sends_nothing
  {rendering : FormData.HeaderRendering}
  (getLengthSync : FormData.t -> Completion jsnum)
  (DOX_SCHEMA : option string) (boundary : string) (req : Request) :
  is_multipart_post req = true ->
  let run := onProxyReq getLengthSync DOX_SCHEMA boundary req in
  (forall kv, In kv (body req) -> JSON.parse (snd kv) = None ->
     filter is_outbound (effects run) = [])
  /\ (forall form, In (Pipe form) (effects run) ->
        exists ps,
          FormData.parts form = (ps ++ map file_part (uploaded req))%list
          /\ Forall2 (field_part DOX_SCHEMA) (body req) ps).
Proof.
  intros Hm run; split.
  - intros kv Hin Hnone.
    destruct (failed_run getLengthSync DOX_SCHEMA boundary req kv Hm Hin Hnone)
      as [fx [e [Hrun [Hlogs Hkind]]]].
    unfold run; rewrite Hrun; cbn [effects fst].
    rewrite filter_app, (filter_outbound_logs fx Hlogs). reflexivity.
  - intros form Hpipe.
    now destruct (piped_parts _ _ _ _ _ Hpipe) as [_ [_ H]].
Qed.

Lemma parse_failure_sends_nothing_witness :
  JSON.parse "{oops" = None
  /\ filter is_outbound
       (effects (onProxyReq (rendering := example_rendering) lib_getLengthSync None
                   "b" broken_request)) = [].
Proof.
  split; [reflexivity|].
  exact (proj1 (@parse_failure_sends_nothing example_rendering lib_getLengthSync
                  None "b" broken_request eq_refl)
           ("extra", "{oops") (or_intror (or_introl eq_refl)) eq_refl).
Defined.

(** C6. In every form the handler forwards, each uploaded file has its own
    part, after the parts of the fields and in the order of upload, carrying
    the file's field name, original filename, MIME type and buffer as they
    came; in the emitted body the part is the header rendered from exactly
    these, the buffer's bytes unchanged, and a line break. *)
Theorem files_passed_through
  {rendering : FormData.HeaderRendering}
  (getLengthSync : FormData.t -> Completion jsnum)
  (DOX_SCHEMA : option string) (boundary : string)
  (req : Request) (form : FormData.t) :
  In (Pipe form) (effects (onProxyReq getLengthSync DOX_SCHEMA boundary req)) ->
  (exists field_parts,
     FormData.parts form = (field_parts ++ map file_part (uploaded req))%list
     /\ List.length field_parts = List.length (body req))
  /\ forall file, In file (uploaded req) ->
       In (FormData.mkPart (fieldname file) (FormData.Buffer (buffer file))
             (FormData.mkOptions (Some (originalname file)) (Some (mimetype file))))
          (FormData.parts form)
       /\ exists pre post,
            FormData.stream form
            = (pre
               ++ utf8_bytes
                    (FormData.multiPartHeader boundary (fieldname file)
                       (FormData.mkOptions (Some (originalname file))
                          (Some (mimetype file))))
               ++ buffer file
               ++ utf8_bytes FormData.LINE_BREAK
               ++ post)%list.
Proof.
  intros Hpipe.
  destruct (piped_parts _ _ _ _ _ Hpipe) as [_ [Hb [ps [Hps Hall]]]].
  split.
  - exists ps; split; [exact Hps|].
    symmetry; exact (Forall2_length Hall).
  - intros file Hfile.
    assert (Hin : In (file_part file) (FormData.parts form)).
    { rewrite Hps, in_app_iff; right; now apply in_map. }
    split; [exact Hin|].
    destruct (stream_part form _ Hin) as [pre [post Hstream]].
    exists pre, post; rewrite Hstream, Hb.
    unfold FormData.part_bytes, file_part; cbn.
    now rewrite <- !app_assoc.
Qed.

Lemma files_passed_through_witness :
  In (FormData.mkPart "doc" (FormData.Buffer (utf8_bytes "%PDF-1.4 sample"))
        (FormData.mkOptions (Some "invoice.pdf") (Some "application/pdf")))
     (FormData.parts upload_form).
Proof.
  refine (proj1 (proj2 (@files_passed_through example_rendering lib_getLengthSync
                          None "b" upload_request upload_form _)
                   invoice (or_introl eq_refl))).
  find_member.
Defined.

(** C7. With the package's own length computation, a [Content-Length]
    header set by the handler carries the exact number of bytes of the body
    that the forwarded form emits. *)
Theorem content_length_exact
  {rendering : FormData.HeaderRendering}
  (DOX_SCHEMA : option string) (boundary : string)
  (req : Request) (v : HeaderValue) :
  let run := onProxyReq lib_getLengthSync DOX_SCHEMA boundary req in
  In (SetHeader "Content-Length" v) (effects run) ->
  exists form,
    In (Pipe form) (effects run)
    /\ v = HNum (Num (N.of_nat (List.length (FormData.stream form)))).
Proof.
  intros run Hset; unfold run in *.
  apply handler_effects_inv in Hset.
  destruct Hset as [Hin | [[_ Hin] | [Hm [fx [form0 [Hloop Hin]]]]]]; try discriminate.
  cbv zeta in Hin.
  destruct Hin as [Hin | [[n [Hv [Hn _]]] | [Hin | [Hin | Hin]]]]; try discriminate.
  exists (append_files form0 (files req)).
  assert (Hpipe : In (Pipe (append_files form0 (files req)))
                     (effects (onProxyReq lib_getLengthSync DOX_SCHEMA boundary req))).
  { rewrite (onProxyReq_multipart _ _ _ _ Hm), Hloop; cbn [effects fst].
    rewrite !in_app_iff; do 3 right; right; now left. }
  split; [exact Hpipe|].
  destruct (piped_parts _ _ _ _ _ Hpipe) as [Hbuilt _].
  inversion Hv; subst v. unfold lib_getLengthSync in Hn; inversion Hn; subst n.
  now rewrite (getLengthSync_stream _ Hbuilt).
Qed.

Lemma content_length_exact_witness :
  exists form,
    In (Pipe form)
       (effects (onProxyReq (rendering := example_rendering) lib_getLengthSync None
                   "b" upload_request))
    /\ HNum (Num 242)
       = HNum (Num (N.of_nat (List.length
                                (FormData.stream (rendering := example_rendering) form)))).
Proof.
  apply (@content_length_exact example_rendering None "b" upload_request
           (HNum (Num 242))).
  find_member.
Defined.

(** C8. When the length computation throws on the form of a multipart
    request whose fields were all rewritten, the handler still completes
    normally: it sets no [Content-Length] header, pipes the form and attaches
    both listeners, exactly as it does when the computation returns [NaN]. *)
Theorem length_failure_recovered
  {rendering : FormData.HeaderRendering}
  (getLengthSync : FormData.t -> Completion jsnum)
  (DOX_SCHEMA : option string) (boundary : string)
  (req : Request) (form0 : FormData.t) (e : Exn) :
  is_multipart_post req = true ->
  completion (foldM (rewrite_field DOX_SCHEMA) (body req) (FormData.create boundary))
  = Normal form0 ->
  getLengthSync (append_files form0 (files req)) = Throw e ->
  let run := onProxyReq getLengthSync DOX_SCHEMA boundary req in
  let form := append_files form0 (files req) in
  completion run = Normal tt
  /\ (forall v, ~ In (SetHeader "Content-Length" v) (effects run))
  /\ (exists pre,
        effects run
        = (pre ++ [Log debug "Calculating Content-Length for the request ...";
                   Log debug "Pipelining new request ...";
                   Pipe form;
                   FormOn form_error_listener;
                   FormOn form_end_listener])%list)
  /\ run = onProxyReq (fun _ => Normal NaN) DOX_SCHEMA boundary req.
Proof.
  intros Hm Hloop Hthrow run form.
  fold form in Hthrow.
  assert (Hrun : forall g, g form = Throw e \/ g form = Normal NaN ->
            onProxyReq g DOX_SCHEMA boundary req
            = (((Log debug "Handling multipart/form-data request ..."
                 :: Log debug "Modification of body request ..."
                 :: effects (foldM (rewrite_field DOX_SCHEMA) (body req)
                               (FormData.create boundary)))
                ++ [Log debug "Adding files to multipart request ...";
                    Log debug "Adding headers to request ...";
                    SetHeader "content-type"
                      (HStr ("multipart/form-data; boundary="
                             ++ FormData.boundary form)%string)])
               ++ [Log debug "Calculating Content-Length for the request ...";
                   Log debug "Pipelining new request ...";
                   Pipe form;
                   FormOn form_error_listener;
                   FormOn form_end_listener], Normal tt)%list).
  { intros g Hg. rewrite (onProxyReq_multipart _ _ _ _ Hm).
    destruct (foldM _ (body req) _) as [fx c]; cbn [effects completion fst snd] in *.
    subst c; cbv zeta; fold form.
    rewrite set_content_length_eq; cbn [effects fst].
    destruct Hg as [-> | ->]; cbn [truthy isNaN andb app];
      now rewrite <- app_assoc. }
  assert (Hno : forall v, ~ In (SetHeader "Content-Length" v) (effects run)).
  { intros v Hin; apply handler_effects_inv in Hin.
    destruct Hin as [Hin | [[_ Hin] | [_ [fx [form1 [Hloop1 Hin]]]]]];
      try discriminate.
    rewrite Hloop1 in Hloop; cbn [completion snd] in Hloop.
    inversion Hloop; subst form1.
    cbv zeta in Hin; fold form in Hin.
    destruct Hin as [Hin | [[n [_ [Hn _]]] | [Hin | [Hin | Hin]]]]; try discriminate.
    congruence. }
  split; [|split; [exact Hno|]]; unfold run;
    rewrite (Hrun getLengthSync (or_introl Hthrow)).
  - reflexivity.
  - split; [eexists; reflexivity|].
    now rewrite (Hrun (fun _ => Normal NaN) (or_intror eq_refl)).
Qed.

Lemma length_failure_recovered_witness :
  filter is_outbound
    (effects (onProxyReq (rendering := example_rendering) failing_getLengthSync None
                "b" upload_request))
  = filter is_outbound
      (effects (onProxyReq (rendering := example_rendering) (fun _ => Normal NaN) None
                  "b" upload_request)).
Proof.
  rewrite (proj2 (proj2 (proj2
    (@length_failure_recovered example_rendering failing_getLengthSync None "b"
       upload_request _ _ eq_refl eq_refl eq_refl)))).
  reflexivity.
Defined.

(** The calls of the handler's two listeners over a run of the stream. *)
Lemma run_calls evs closing :
  Run evs closing ->
  emit_all [form_error_listener; form_end_listener] evs
  = match closing with
    | Failed err => [console_error "Form pipe error:" err; proxyReq_destroy err]
    | _ => [proxyReq_end]
    end.
Proof.
  induction 1 as [| err | chunk evs closing _ IH]; [reflexivity | reflexivity |].
  exact IH.
Qed.

(** C9. Once the form is piped, a run of its stream (chunks of data, then
    either [end] or [error]) makes the handler's listeners close the outbound
    request by exactly one call: [proxyReq.destroy(err)] when the stream
    reports the error [err], which leaves the request destroyed, and
    [proxyReq.end()] when it ends, which leaves the request ended. *)
Theorem one_terminal_action
  {rendering : FormData.HeaderRendering}
  (getLengthSync : FormData.t -> Completion jsnum)
  (DOX_SCHEMA : option string) (boundary : string)
  (req : Request) (form : FormData.t)
  (evs : list StreamEvent) (closing : StreamEvent) :
  let run := onProxyReq getLengthSync DOX_SCHEMA boundary req in
  let calls := emit_all (form_listeners (effects run)) evs in
  In (Pipe form) (effects run) ->
  Run evs closing ->
  filter is_terminal calls
  = match closing with
    | Failed err => [proxyReq_destroy err]
    | _ => [proxyReq_end]
    end
  /\ status_after calls
     = match closing with
       | Failed _ => Destroyed
       | _ => Ended
       end.
Proof.
  intros run calls Hpipe Hrun; unfold calls, run.
  rewrite (piped_listeners _ _ _ _ _ Hpipe), (run_calls _ _ Hrun).
  clear calls Hpipe.
  induction Hrun as [| err | chunk evs closing _ IH];
    [split; reflexivity | split; reflexivity | exact IH].
Qed.

Lemma one_terminal_action_witness :
  filter is_terminal
    (emit_all
       (form_listeners
          (effects (onProxyReq (rendering := example_rendering) lib_getLengthSync None
                      "b" upload_request)))
       [Data (utf8_bytes "--b"); Data (utf8_bytes "rest"); Failed (Error "EPIPE")])
  = [proxyReq_destroy (Error "EPIPE")].
Proof.
  refine (proj1 (@one_terminal_action example_rendering lib_getLengthSync None "b"
                   upload_request _ _ (Failed (Error "EPIPE")) _
                   (Run_data _ _ _ (Run_data _ _ _ (Run_failed (Error "EPIPE")))))).
  find_member.
Defined.

(** C10, counterexample: for the field [null] the assignment of
    [schemaName] throws, and the request is dropped like one with a field
    that is not JSON. *)
Lemma null_field_fails_request :
  JSON.parse "null" = Some JSON.VNull
  /\ onProxyReq (rendering := example_rendering) lib_getLengthSync None "b" null_request
     = ([Log debug "Handling multipart/form-data request ...";
         Log debug "Modification of body request ...";
         Log debug "Original body request: null";
         Log error "Error in onProxyReq: TypeError"], Normal tt).
Proof. split; reflexivity. Qed.

(** C10, amended. A text field whose value parses as JSON but not as an
    object: for a number, a string, a boolean or an array the iteration
    completes and the field's part is the serialisation of the parsed value
    itself, which has no members and so no [schemaName]; for [null] the
    iteration throws a [TypeError]. *)
Theorem non_object_field
  {rendering : FormData.HeaderRendering} (DOX_SCHEMA : option string)
  (form : FormData.t) (key text : string) (v : JSON.value) :
  JSON.parse text = Some v ->
  JSON.is_object v = false ->
  JSON.get "schemaName" (JSON.members v) = None
  /\ match v with
     | JSON.VNull =>
         rewrite_field DOX_SCHEMA form (key, text)
         = ([Log debug "Original body request: null"], Throw TypeError)
     | _ =>
         completion (rewrite_field DOX_SCHEMA form (key, text))
         = Normal (FormData.append form key (FormData.Text (JSON.stringify v))
                     FormData.no_options)
     end.
Proof.
  intros Hparse Hobj; rewrite rewrite_field_eq, Hparse.
  destruct v; try discriminate; split; reflexivity.
Qed.

Lemma non_object_field_witness :
  JSON.parse "[1, {}]" = Some (JSON.VArr [JSON.VNum (JSON.mkNumber false 1 0);
                                          JSON.VObj []] [])
  /\ completion (rewrite_field (rendering := example_rendering) None
                   (FormData.create "b") ("options", "[1, {}]"))
     = Normal (FormData.append (rendering := example_rendering) (FormData.create "b")
                 "options" (FormData.Text "[1,{}]") FormData.no_options).
Proof.
  split; [reflexivity|].
  exact (proj2 (@non_object_field example_rendering None (FormData.create "b")
                  "options" "[1, {}]" _ eq_refl eq_refl)).
Defined.

(* ================================================================== *)
(** * Further properties *)

(** ** Start-up *)

Section StartupFacts.
Import Startup.
Variable readFileSync : string -> Completion bytes.
Variable createSecureContext : bytes -> bytes -> string -> Completion unit.

Let prelude : list Step :=
  [Logged info "Starting Sale Order Extraction Proxy ...";
   Logged debug "Setting body parser limits ...";
   Use None [bodyParser_json 52428800];
   Use None [bodyParser_urlencoded 52428800 true 52428800];
   Logged debug
     "Connecting proxy middleware function for request manipulation and formward request to DOX ...";
   Use (Some "/") [upload_any; proxy_doxForward];
   Logged debug "Determining runtime environment for HTTP/HTTPS startup..."].

Let http (env : Env) : Step :=
  ListenHTTP (port env) ("HTTP server listening on port " ++ Port_toString (port env)).

Let fallback (env : Env) (e : Exn) : list Step :=
  [Warned ("Failed to start HTTPS on port 443 (" ++ message_of e
           ++ "). Falling back to HTTP on port 8080.");
   http env].

(** Start-up, case by case. *)
Lemma start_cases env :
  start readFileSync createSecureContext env
  = ((prelude ++
      if isCloudFoundry env then
        [Logged info ("Detected Cloud Foundry environment — starting HTTP on port "
                      ++ Port_toString (port env))%string;
         http env]
      else
        Logged info "Starting local HTTPS server"
        :: ReadFile (sslKeyPath env)
        :: match readFileSync (sslKeyPath env) with
           | Throw e => fallback env e
           | Normal key =>
               ReadFile (sslCertPath env)
               :: match readFileSync (sslCertPath env) with
                  | Throw e => fallback env e
                  | Normal cert =>
                      match createSecureContext key cert (sslPassphrase env) with
                      | Throw e => fallback env e
                      | Normal _ =>
                          [ListenHTTPS key cert (sslPassphrase env) 443
                             "HTTPS server listening on port 443"]
                      end
                  end
           end)%list, Normal tt).
Proof.
  unfold start, fs_readFileSync, listen_http, fallback, http, prelude.
  destruct (isCloudFoundry env); [reflexivity|].
  cbv [then_ step].
  destruct (readFileSync (sslKeyPath env)) as [key|e]; [|reflexivity].
  destruct (readFileSync (sslCertPath env)) as [cert|e]; [|reflexivity].
  destruct (createSecureContext key cert (sslPassphrase env)) as [[]|e]; reflexivity.
Qed.


(** X2. In Cloud Foundry ([VCAP_APPLICATION] set and not empty) the program
    touches no file: the logger writes to the console only, start-up reads
    no key or certificate, and the one server is plain HTTP on [PORT], or on
    8080 when [PORT] is unset or empty. *)
Theorem cloud_foundry_start env :
  isCloudFoundry env = true ->
  let run := start readFileSync createSecureContext env in
  transports env = [Console]
  /\ filter is_read (steps run) = []
  /\ filter is_listen (steps run)
     = [ListenHTTP (port env)
          ("HTTP server listening on port " ++ Port_toString (port env))]
  /\ port env = match PORT env with
                | Some (String c s) => PortText (String c s)
                | _ => PortNumber 8080
                end.
Proof.
  intros Hcf run; unfold run, steps, transports; rewrite start_cases, Hcf.
  repeat split.
Qed.

(** X3. Outside Cloud Foundry the server is HTTPS on port 443, with the key
    and certificate read from [SSL_KEY] and [SSL_CERT] (or the lab files)
    and whatever [PORT] says, exactly when both files can be read and TLS
    accepts them. Otherwise a warning with the error's message is logged and
    the server is plain HTTP on [PORT], on 8080 only when [PORT] is unset or
    empty; when the key cannot be read the certificate is not read. *)
Theorem local_start env :
  isCloudFoundry env = false ->
  let run := start readFileSync createSecureContext env in
  let warning e :=
    Warned ("Failed to start HTTPS on port 443 (" ++ message_of e
            ++ "). Falling back to HTTP on port 8080.") in
  let http :=
    ListenHTTP (port env) ("HTTP server listening on port " ++ Port_toString (port env)) in
  match readFileSync (sslKeyPath env) with
  | Throw e =>
      filter is_read (steps run) = [ReadFile (sslKeyPath env)]
      /\ In (warning e) (steps run) /\ filter is_listen (steps run) = [http]
  | Normal key =>
      filter is_read (steps run) = [ReadFile (sslKeyPath env); ReadFile (sslCertPath env)]
      /\ match readFileSync (sslCertPath env) with
         | Throw e => In (warning e) (steps run) /\ filter is_listen (steps run) = [http]
         | Normal cert =>
             match createSecureContext key cert (sslPassphrase env) with
             | Throw e =>
                 In (warning e) (steps run) /\ filter is_listen (steps run) = [http]
             | Normal _ =>
                 filter is_listen (steps run)
                 = [ListenHTTPS key cert (sslPassphrase env) 443
                      "HTTPS server listening on port 443"]
                 /\ forall m, ~ In (Warned m) (steps run)
             end
         end
  end.
Proof.
  intros Hcf run warning listening; unfold run, steps, warning, listening.
  rewrite start_cases, Hcf; cbn [fst].
  destruct (readFileSync (sslKeyPath env)) as [key|e].
  - destruct (readFileSync (sslCertPath env)) as [cert|e];
      [destruct (createSecureContext key cert (sslPassphrase env)) as [[]|e]|].
    + repeat split. intros m Hin; cbn in Hin.
      repeat (destruct Hin as [Hin|Hin]; [discriminate|]). exact Hin.
    + repeat split. cbn; do 10 right; now left.
    + repeat split. cbn; do 10 right; now left.
  - repeat split. cbn; do 9 right; now left.
Qed.
End StartupFacts.

Lemma cloud_foundry_start_witness :
  filter Startup.is_listen
    (Startup.steps (Startup.start (Startup.read_from []) Startup.any_key Startup.cf_env))
  = [Startup.ListenHTTP (Startup.PortText "8443") "HTTP server listening on port 8443"].
Proof.
  exact (proj1 (proj2 (proj2
    (cloud_foundry_start (Startup.read_from []) Startup.any_key Startup.cf_env eq_refl)))).
Defined.

Lemma local_start_witness :
  In (Startup.Warned
        ("Failed to start HTTPS on port 443 ("
         ++ "ENOENT: no such file or directory, open 'certs/lab02.key'"
         ++ "). Falling back to HTTP on port 8080."))
     (Startup.steps (Startup.start (Startup.read_from []) Startup.any_key
                       Startup.local_env_with_port))
  /\ filter Startup.is_listen
       (Startup.steps (Startup.start (Startup.read_from []) Startup.any_key
                         Startup.local_env_with_port))
     = [Startup.ListenHTTP (Startup.PortText "3000") "HTTP server listening on port 3000"].
Proof.
  exact (proj2 (local_start (Startup.read_from []) Startup.any_key
                  Startup.local_env_with_port eq_refl)).
Defined.

(** ** The handler, beyond the claims *)

Lemma forallb_false {A} (f : A -> bool) l :
  forallb f l = false <-> exists x, In x l /\ f x = false.
Proof.
  induction l as [|a l IH]; simpl.
  - split; [discriminate | intros [x [[] _]]].
  - rewrite andb_false_iff, IH; split.
    + intros [Ha | [x [Hin Hx]]]; [exists a; auto | exists x; auto].
    + intros [x [[<- | Hin] Hx]]; [now left | right; now exists x].
Qed.

Section MoreHandlerFacts.
Context {rendering : FormData.HeaderRendering}.
Variable getLengthSync : FormData.t -> Completion jsnum.
Variable DOX_SCHEMA : option string.
Variable boundary : string.

(** The loop logs at level [debug] only. *)
Lemma fields_loop_debug l : forall form,
  Forall (fun x => exists m, x = Log debug m)
         (effects (foldM (rewrite_field DOX_SCHEMA) l form)).
Proof.
  induction l as [|[key text] l IH]; intros form; [constructor|].
  cbn [foldM]; rewrite rewrite_field_eq.
  destruct (JSON.parse text) as [v|]; [|constructor].
  destruct (completion (assign v "schemaName" _)) as [v'|e].
  - unfold bind.
    specialize (IH (FormData.append form key
      (FormData.Text (JSON.stringify (delete v' "extraction"))) FormData.no_options)).
    destruct (foldM _ l _) as [fx c]; simpl in *.
    repeat constructor; eauto.
  - repeat constructor; eauto.
Qed.

(** The loop completes exactly when every field can be rewritten. *)
Lemma fields_loop_outcome l : forall form,
  match completion (foldM (rewrite_field DOX_SCHEMA) l form) with
  | Normal _ => forallb rewritable l = true
  | Throw _ => forallb rewritable l = false
  end.
Proof.
  induction l as [|[key text] l IH]; intros form; [reflexivity|].
  cbn [foldM forallb]; rewrite rewrite_field_eq; unfold rewritable at 1 3; cbn [snd].
  destruct (JSON.parse text) as [v|]; [|reflexivity].
  destruct v; try reflexivity;
    cbn [assign completion snd ret bind];
    match goal with
    | |- context [foldM _ l ?f] =>
        specialize (IH f); destruct (foldM _ l f) as [fx [form'|e]]; exact IH
    end.
Qed.

(** The handler catches whatever it throws. *)
Lemma handler_completes req :
  completion (onProxyReq getLengthSync DOX_SCHEMA boundary req) = Normal tt.
Proof.
  destruct (is_multipart_post req) eqn:Hm.
  - rewrite (onProxyReq_multipart _ _ _ _ Hm).
    now destruct (foldM _ (body req) _) as [fx [form0|e]].
  - now rewrite (onProxyReq_passthrough _ _ _ _ Hm).
Qed.

(** X4. The handler never throws, whatever the request and the library do,
    and it logs an error exactly when the request is a multipart [POST] with
    a field whose text is not JSON or is the JSON [null]: a failing length
    computation, a missing file list or an empty body never drop a
    request. *)
Theorem request_dropped_iff req :
  let run := onProxyReq getLengthSync DOX_SCHEMA boundary req in
  completion run = Normal tt
  /\ ((exists m, In (Log error m) (effects run)) <->
      is_multipart_post req = true
      /\ exists kv, In kv (body req)
                    /\ (JSON.parse (snd kv) = None
                        \/ JSON.parse (snd kv) = Some JSON.VNull)).
Proof.
  intros run; split; [apply handler_completes|].
  assert (Hbad : forall kv, rewritable kv = false <->
            JSON.parse (snd kv) = None \/ JSON.parse (snd kv) = Some JSON.VNull).
  { intros kv; unfold rewritable.
    destruct (JSON.parse (snd kv)) as [[]|]; split; intros H; auto;
      try discriminate; destruct H; discriminate. }
  unfold run; destruct (is_multipart_post req) eqn:Hm.
  - rewrite (onProxyReq_multipart _ _ _ _ Hm).
    pose proof (fields_loop_debug (body req) (FormData.create boundary)) as Hdebug.
    pose proof (fields_loop_outcome (body req) (FormData.create boundary)) as Hout.
    rewrite Forall_forall in Hdebug.
    destruct (foldM _ (body req) _) as [fx [form0|e]];
      cbn [effects completion fst snd] in *.
    + split.
      * intros [m Hin]; exfalso.
        rewrite set_content_length_eq in Hin; cbn [effects fst] in Hin.
        rewrite !in_app_iff in Hin.
        destruct Hin as [Hin | [Hin | [Hin | Hin]]].
        -- destruct Hin as [Hin | [Hin | Hin]]; try discriminate.
           destruct (Hdebug _ Hin) as [m' Hm']; discriminate.
        -- simpl in Hin; intuition discriminate.
        -- destruct (getLengthSync _) as [n|]; [destruct (truthy n && negb (isNaN n))|];
             simpl in Hin; intuition discriminate.
        -- simpl in Hin; intuition discriminate.
      * intros [_ [kv [Hin Hkv]]]; exfalso.
        apply Hbad in Hkv.
        assert (Hf : forallb rewritable (body req) = false)
          by (apply forallb_false; now exists kv).
        congruence.
    + split.
      * intros _; split; [reflexivity|].
        apply forallb_false in Hout; destruct Hout as [kv [Hin Hkv]].
        exists kv; split; [exact Hin | now apply Hbad].
      * intros _; eexists; rewrite in_app_iff; right; now left.
  - rewrite (onProxyReq_passthrough _ _ _ _ Hm); cbn [effects fst]; split.
    + intros [m [Hin | [Hin | []]]]; discriminate.
    + intros [Hf _]; discriminate.
Qed.

(** X5. What the handler does to the outbound request, in order: for a
    request off the multipart branch, the one call to [fixRequestBody]; for
    a multipart [POST] with a field that cannot be rewritten, nothing; and
    otherwise the [content-type] header naming the form's boundary, at most
    one [Content-Length] header, then the pipe of one form that uses that
    boundary, then the error and the end listener, and nothing else. *)
Theorem outbound_sequence req :
  let out :=
    filter is_outbound (effects (onProxyReq getLengthSync DOX_SCHEMA boundary req)) in
  if is_multipart_post req then
    if forallb rewritable (body req) then
      exists form length_header,
        out = (SetHeader "content-type"
                 (HStr ("multipart/form-data; boundary=" ++ boundary)%string)
               :: length_header
               ++ [Pipe form; FormOn form_error_listener; FormOn form_end_listener])%list
        /\ FormData.boundary form = boundary
        /\ (length_header = []
            \/ exists n, length_header = [SetHeader "Content-Length" (HNum n)])
    else out = []
  else out = [FixRequestBody].
Proof.
  intros out; unfold out; clear out.
  destruct (is_multipart_post req) eqn:Hm;
    [|now rewrite (onProxyReq_passthrough _ _ _ _ Hm)].
  rewrite (onProxyReq_multipart _ _ _ _ Hm).
  pose proof (fields_loop_logs DOX_SCHEMA (body req) (FormData.create boundary)) as Hlogs.
  pose proof (fields_loop_outcome (body req) (FormData.create boundary)) as Hout.
  pose proof (fields_loop_normal DOX_SCHEMA (body req) (FormData.create boundary))
    as Hnormal.
  destruct (foldM _ (body req) _) as [fx [form0|e]];
    cbn [effects completion fst snd] in *; rewrite Hout.
  - destruct (Hnormal form0 eq_refl) as [Hb _].
    exists (append_files form0 (files req)).
    rewrite set_content_length_eq; cbn [effects fst].
    assert (Hboundary :
              FormData.boundary (append_files form0 (files req)) = boundary)
      by now rewrite append_files_boundary, Hb.
    rewrite Hboundary.
    rewrite !filter_app; cbn [filter is_outbound app].
    rewrite (filter_outbound_logs fx Hlogs); cbn [app].
    destruct (getLengthSync _) as [n|]; [destruct (truthy n && negb (isNaN n))|];
      eexists; (split; [reflexivity|]); (split; [reflexivity|]);
      cbn [filter is_outbound]; [right; now exists n | now left | now left].
  - rewrite filter_app; cbn [filter is_outbound app].
    now rewrite (filter_outbound_logs fx Hlogs).
Qed.
End MoreHandlerFacts.

(** A built form has length zero exactly when it has no part. *)
Lemma Built_length_zero {rendering : FormData.HeaderRendering} f :
  Built f -> (FormData.getLengthSync f = 0%N <-> FormData.parts f = []).
Proof.
  intros Hf; unfold FormData.getLengthSync, FormData.has_parts.
  pose proof (Built_lengths f Hf) as Hlen.
  destruct (FormData.parts f) as [|p ps] eqn:Hparts.
  - simpl in Hlen; split; [reflexivity | lia].
  - split; [|discriminate].
    unfold FormData.lastBoundary; simpl String.length. lia.
Qed.

Lemma loop_logs_fields {rendering : FormData.HeaderRendering} DOX_SCHEMA l :
  forall form form' kv,
    completion (foldM (rewrite_field DOX_SCHEMA) l form) = Normal form' ->
    In kv l ->
    exists v v',
      JSON.parse (snd kv) = Some v
      /\ completion (assign v "schemaName" (JSON.VStr (doxSchemaName DOX_SCHEMA)))
         = Normal v'
      /\ In (Log debug ("Original body request: " ++ JSON.stringify v))
            (effects (foldM (rewrite_field DOX_SCHEMA) l form))
      /\ In (Log debug ("Modified body request: "
                        ++ JSON.stringify (delete v' "extraction")))
            (effects (foldM (rewrite_field DOX_SCHEMA) l form)).
Proof.
  induction l as [|[key text] l IH]; intros form form' kv Hc Hin; [destruct Hin|].
  revert Hc; cbn [foldM]; rewrite rewrite_field_eq.
  destruct (JSON.parse text) as [v|] eqn:Hparse; [|discriminate].
  destruct (completion (assign v "schemaName" _)) as [v'|e] eqn:Hassign; [|discriminate].
  unfold bind.
  specialize (IH (FormData.append form key
    (FormData.Text (JSON.stringify (delete v' "extraction"))) FormData.no_options)
    form' kv).
  destruct (foldM _ l _) as [fx c]; cbn [effects completion fst snd] in *.
  intros Hc. destruct Hin as [<- | Hin].
  - exists v, v'; cbn [snd]; repeat split; auto; simpl; auto.
  - destruct (IH Hc Hin) as [w [w' [H1 [H2 [H3 H4]]]]].
    exists w, w'; repeat split; auto; simpl; auto.
Qed.

Section Confidentiality.
Context {rendering : FormData.HeaderRendering}.
Variable DOX_SCHEMA : option string.
Variable boundary : string.

(** X6. With the package's length computation, a forwarded request carries
    a [Content-Length] header exactly when its form has a part, that is,
    when the request had a field or a file; a form without parts emits no
    byte and is sent without the header. *)
Theorem content_length_iff_parts req form :
  let run := onProxyReq lib_getLengthSync DOX_SCHEMA boundary req in
  In (Pipe form) (effects run) ->
  ((exists v, In (SetHeader "Content-Length" v) (effects run)) <->
   FormData.parts form <> [])
  /\ (FormData.parts form = [] <-> body req = [] /\ uploaded req = [])
  /\ (FormData.parts form = [] -> FormData.stream form = []).
Proof.
  intros run Hpipe; unfold run in *.
  destruct (piped_parts _ _ _ _ _ Hpipe) as [Hbuilt [_ [ps [Hps Hall]]]].
  destruct (piped_form _ _ _ _ _ Hpipe) as [Hm [fx [form0 [Hloop Hform]]]].
  split; [|split].
  - split.
    + intros [v Hin] Hparts.
      apply handler_effects_inv in Hin.
      destruct Hin as [Hin | [[_ Hin] | [_ [fx1 [form1 [Hloop1 Hin]]]]]];
        try discriminate.
      rewrite Hloop in Hloop1; inversion Hloop1; subst fx1 form1.
      cbv zeta in Hin; rewrite <- Hform in Hin.
      destruct Hin as [Hin | [[n [_ [Hn Ht]]] | [Hin | [Hin | Hin]]]];
        try discriminate.
      unfold lib_getLengthSync in Hn; inversion Hn; subst n.
      apply (Built_length_zero form Hbuilt) in Hparts.
      rewrite Hparts in Ht; discriminate.
    + intros Hparts.
      exists (HNum (Num (FormData.getLengthSync form))).
      rewrite (onProxyReq_multipart _ _ _ _ Hm), Hloop; cbn [effects fst]; cbv zeta.
      rewrite <- Hform, set_content_length_eq; cbn [effects fst].
      unfold lib_getLengthSync; cbn [truthy isNaN negb].
      destruct (N.eqb_spec (FormData.getLengthSync form) 0) as [H0|_].
      * apply (Built_length_zero form Hbuilt) in H0; contradiction.
      * rewrite !in_app_iff; right; right; left; now left.
  - rewrite Hps; split.
    + intros H; apply app_eq_nil in H; destruct H as [-> H].
      inversion Hall; split; [reflexivity|].
      now apply map_eq_nil in H.
    + intros [Hb Hu]; rewrite Hb in Hall; inversion Hall; now rewrite Hu.
  - intros Hparts; unfold FormData.stream, FormData.has_parts; now rewrite Hparts.
Qed.

(** X7. What a forwarded request writes to the log: for every text field,
    the serialisation of what it parsed to and of what it was rewritten
    to, both at level [debug]. *)
Theorem fields_are_logged getLengthSync req form kv :
  let run := onProxyReq getLengthSync DOX_SCHEMA boundary req in
  In (Pipe form) (effects run) ->
  In kv (body req) ->
  exists v v',
    JSON.parse (snd kv) = Some v
    /\ completion (assign v "schemaName" (JSON.VStr (doxSchemaName DOX_SCHEMA)))
       = Normal v'
    /\ In (Log debug ("Original body request: " ++ JSON.stringify v)) (effects run)
    /\ In (Log debug ("Modified body request: "
                      ++ JSON.stringify (delete v' "extraction"))) (effects run).
Proof.
  intros run Hpipe Hin; unfold run in *.
  destruct (piped_form _ _ _ _ _ Hpipe) as [Hm [fx [form0 [Hloop _]]]].
  assert (Hc : completion (foldM (rewrite_field DOX_SCHEMA) (body req)
                             (FormData.create boundary)) = Normal form0)
    by now rewrite Hloop.
  destruct (loop_logs_fields _ _ _ _ _ Hc Hin) as [v [v' [H1 [H2 [H3 H4]]]]].
  exists v, v'; split; [exact H1|]. split; [exact H2|].
  rewrite (onProxyReq_multipart _ _ _ _ Hm), Hloop in *; cbn [effects fst] in *.
  split; rewrite in_app_iff; left; right; right; assumption.
Qed.

(** X8. What the handler never writes to the log: anything of the uploaded
    files or of the length computation. Two requests that differ only in
    their files, handled with any two length computations, leave the same
    log lines. *)
Theorem files_are_not_logged getLengthSync getLengthSync' req other_files :
  filter is_log (effects (onProxyReq getLengthSync DOX_SCHEMA boundary req))
  = filter is_log
      (effects (onProxyReq getLengthSync' DOX_SCHEMA boundary
                  (mkRequest (method req) (url req) (headers req) (body req)
                     other_files))).
Proof.
  set (req' := mkRequest (method req) (url req) (headers req) (body req) other_files).
  assert (Hlen : forall g f, filter is_log (effects (set_content_length g f)) = []).
  { intros g f; rewrite set_content_length_eq; cbn [effects fst].
    destruct (g f) as [n|]; [destruct (truthy n && negb (isNaN n))|]; reflexivity. }
  destruct (is_multipart_post req) eqn:Hm.
  - assert (Hm' : is_multipart_post req' = true) by exact Hm.
    rewrite (onProxyReq_multipart _ _ _ _ Hm), (onProxyReq_multipart _ _ _ _ Hm').
    change (body req') with (body req).
    destruct (foldM _ (body req) _) as [fx [form0|e]]; [|reflexivity].
    cbn [effects fst]; cbv zeta.
    rewrite !filter_app, !Hlen. reflexivity.
  - assert (Hm' : is_multipart_post req' = false) by exact Hm.
    now rewrite (onProxyReq_passthrough _ _ _ _ Hm), (onProxyReq_passthrough _ _ _ _ Hm').
Qed.

(** X9. Each proxied request is logged once at level [info], as
    [[HPM] [method] url], by the plugin, after the handler is done with it
    and also when the handler dropped it. *)
Theorem every_request_is_logged getLengthSync req :
  emit_proxyReq (doxForward getLengthSync DOX_SCHEMA boundary) req
  = ((effects (onProxyReq getLengthSync DOX_SCHEMA boundary req)
      ++ [Log info ("[HPM] [" ++ method req ++ "] " ++ url req)%string])%list,
     Normal tt).
Proof.
  unfold emit_proxyReq, doxForward; cbn [on_proxyReq plugins forEach].
  pose proof (handler_completes getLengthSync DOX_SCHEMA boundary req) as Hc.
  destruct (onProxyReq getLengthSync DOX_SCHEMA boundary req) as [fx c].
  cbn [completion snd] in Hc; subst c. reflexivity.
Qed.
End Confidentiality.

(** ** The rewrite of lines 43-44, on the members of an object *)

Lemma remove_absent k ps : JSON.get k ps = None -> JSON.remove k ps = ps.
Proof.
  induction ps as [|[k' v'] ps IH]; simpl; [reflexivity|].
  destruct (String.eqb k k'); [discriminate|].
  intros H; now rewrite IH.
Qed.

Lemma replace_same k v ps : JSON.get k ps = Some v -> JSON.replace k v ps = ps.
Proof.
  induction ps as [|[k' v'] ps IH]; simpl; [reflexivity|].
  destruct (String.eqb k k').
  - intros H; inversion H; reflexivity.
  - intros H; now rewrite IH.
Qed.

Lemma keys_replace k v ps : map fst (JSON.replace k v ps) = map fst ps.
Proof.
  induction ps as [|[k' v'] ps IH]; simpl; [reflexivity|].
  destruct (String.eqb k k'); simpl; [reflexivity | now rewrite IH].
Qed.

Lemma keys_remove k ps :
  map fst (JSON.remove k ps)
  = filter (fun k' => negb (String.eqb k k')) (map fst ps).
Proof.
  induction ps as [|[k' v'] ps IH]; simpl; [reflexivity|].
  destruct (String.eqb k k'); simpl; now rewrite IH.
Qed.

(** X10. Rewriting is idempotent: on the members of an object that the
    handler has already rewritten, setting [schemaName] and deleting
    [extraction] again changes nothing, neither a value nor the order; a
    field holding such an object is forwarded as its own serialisation. *)
Theorem rewrite_is_idempotent
  {rendering : FormData.HeaderRendering} (DOX_SCHEMA : option string)
  (props : JSON.properties) :
  let rewrite ps :=
    JSON.remove "extraction"
      (JSON.set "schemaName" (JSON.VStr (doxSchemaName DOX_SCHEMA)) ps) in
  rewrite (rewrite props) = rewrite props
  /\ forall form key text,
       JSON.parse text = Some (JSON.VObj (rewrite props)) ->
       completion (rewrite_field DOX_SCHEMA form (key, text))
       = Normal (FormData.append form key
                   (FormData.Text (JSON.stringify (JSON.VObj (rewrite props))))
                   FormData.no_options).
Proof.
  intros rewrite.
  assert (Hidem : rewrite (rewrite props) = rewrite props).
  { unfold rewrite at 1.
    assert (Hname : JSON.get "schemaName" (rewrite props)
                    = Some (JSON.VStr (doxSchemaName DOX_SCHEMA)))
      by (unfold rewrite; now rewrite get_remove, get_set).
    assert (Hext : JSON.get "extraction" (rewrite props) = None)
      by (unfold rewrite; now rewrite get_remove).
    unfold JSON.set, JSON.has; rewrite Hname.
    rewrite (replace_same _ _ _ Hname). now apply remove_absent. }
  split; [exact Hidem|].
  intros form key text Hparse.
  rewrite rewrite_field_eq, Hparse; cbn [assign completion snd ret delete].
  fold (rewrite (rewrite props)). now rewrite Hidem.
Qed.

(** X11. The rewrite keeps the members in their order: the keys of the
    rewritten object are the keys it had, without [extraction], followed by
    [schemaName] if it was not among them; a [schemaName] that was there
    keeps its place. *)
Theorem member_order_is_kept (name : JSON.value) (props : JSON.properties) :
  map fst (JSON.remove "extraction" (JSON.set "schemaName" name props))
  = (filter (fun k => negb (String.eqb "extraction" k)) (map fst props)
     ++ if JSON.has "schemaName" props then [] else ["schemaName"])%list.
Proof.
  rewrite keys_remove; unfold JSON.set.
  destruct (JSON.has "schemaName" props).
  - now rewrite keys_replace, app_nil_r.
  - change (JSON.array_index "schemaName") with (@None N); cbv beta iota.
    now rewrite map_app, filter_app.
Qed.

Example rewritten_field_is_stable :
  completion
    (rewrite_field (rendering := example_rendering) None (FormData.create "b")
       ("options", quoted "{'user':'bob','schemaName':'SO_Auto_Extraction_Schema'}"))
  = Normal (FormData.append (rendering := example_rendering) (FormData.create "b")
              "options"
              (FormData.Text
                 (quoted "{'user':'bob','schemaName':'SO_Auto_Extraction_Schema'}"))
              FormData.no_options).
Proof. reflexivity. Qed.

(** ** Witnesses *)

Lemma content_length_iff_parts_witness :
  exists v,
    In (SetHeader "Content-Length" v)
       (effects (onProxyReq (rendering := example_rendering) lib_getLengthSync None
                   "b" upload_request)).
Proof.
  refine (proj2 (proj1 (@content_length_iff_parts example_rendering None "b"
                          upload_request upload_form _)) _).
  - find_member.
  - discriminate.
Defined.

Lemma fields_are_logged_witness :
  exists v v',
    JSON.parse (quoted "{'extraction':'foo','user':'bob'}") = Some v
    /\ completion (assign v "schemaName" (JSON.VStr (doxSchemaName None))) = Normal v'
    /\ In (Log debug ("Original body request: " ++ JSON.stringify v))
          (effects (onProxyReq (rendering := example_rendering) lib_getLengthSync None
                      "b" upload_request))
    /\ In (Log debug ("Modified body request: "
                      ++ JSON.stringify (delete v' "extraction")))
          (effects (onProxyReq (rendering := example_rendering) lib_getLengthSync None
                      "b" upload_request)).
Proof.
  refine (@fields_are_logged example_rendering None "b" lib_getLengthSync
            upload_request upload_form
            ("options", quoted "{'extraction':'foo','user':'bob'}") _
            (or_introl eq_refl)).
  find_member.
Defined.
